(** * go-ayame: signaling state machine and connection lifecycle

    A shallow embedding of [ayame/connection.go] and [ayame/options.go].

    The Go methods on [*Connection] become computations in a small
    state-and-trace monad [M].  A computation threads a [World] (the
    [Connection] struct plus the little of the outside world the code can
    observe) and produces the list of externally visible [event]s it caused:
    websocket calls, session-engine calls, [go] statements and invocations of
    the consumer callbacks.

    What lies outside the package (the websocket library, the pion session
    engine, [encoding/json]) is not reimplemented.  Its answers come from an
    oracle [Env]: the n-th external call that can fail reads the n-th reply.
    Theorems quantify over the oracle, so they hold for every behaviour of the
    collaborators; counterexamples fix one.

    Not represented: [trace] (debug logging only), the mutex [callbackMu]
    (every computation here runs alone), the RTP reader and the PLI ticker
    started by [OnTrack]. *)

From Stdlib Require Import String List Bool ZArith NArith Lia.
Import ListNotations.

Local Open Scope string_scope.
Local Open Scope list_scope.

Set Warnings "-register-all".

(** ** Constants (connection.go, lines 20-24) *)

(* Durations are kept in seconds. *)
Definition readTimeout : N := 90.
Definition writeTimeout : N := 10.

(** ** JSON values

    A frame is handed to [json.Unmarshal] as bytes.  The model keeps the
    value the parser reads from them.  Numbers are integers here. *)

Inductive json : Type :=
| JNull
| JBool (b : bool)
| JNum (z : Z)
| JStr (s : string)
| JArr (items : list json)
| JObj (fields : list (string * json)).

(* [encoding/json] stores every occurrence of a key in turn, so the last one
   stays.  Keys are compared exactly. *)
Fixpoint lookup (k : string) (fields : list (string * json)) : option json :=
  match fields with
  | [] => None
  | (k', v) :: rest =>
      match lookup k rest with
      | Some v' => Some v'
      | None => if String.eqb k k' then Some v else None
      end
  end.

(* One frame as read from the websocket: its length in bytes and what the
   JSON parser makes of it ([None]: not JSON). *)
Record Frame : Type := mkFrame {
  frame_len : N;
  frame_json : option json
}.

(** ** Types of the session engine (pion/webrtc v2) *)

Inductive ICEConnectionState : Type :=
| ICEConnectionStateNew
| ICEConnectionStateChecking
| ICEConnectionStateConnected
| ICEConnectionStateCompleted
| ICEConnectionStateDisconnected
| ICEConnectionStateFailed
| ICEConnectionStateClosed.

Inductive SignalingState : Type :=
| SignalingStateStable
| SignalingStateHaveLocalOffer
| SignalingStateHaveRemoteOffer
| SignalingStateHaveLocalPranswer
| SignalingStateHaveRemotePranswer
| SignalingStateClosed.

Inductive SDPType : Type :=
| SDPTypeOffer
| SDPTypePranswer
| SDPTypeAnswer
| SDPTypeRollback.

Record SessionDescription : Type := mkSD {
  sd_type : SDPType;
  sd_sdp : string
}.

Inductive ICECredentialType : Type :=
| ICECredentialTypePassword
| ICECredentialTypeOauth.

Record ICEServer : Type := mkICEServer {
  URLs : list string;
  Username : string;
  Credential : option string;
  CredentialType : ICECredentialType
}.

Record ICECandidateInit : Type := mkCandidate {
  cand_candidate : string;
  cand_sdpMid : option string;
  cand_sdpMLineIndex : option Z
}.

Inductive RTPCodecType : Type :=
| RTPCodecTypeAudio
| RTPCodecTypeVideo.

(* A [*webrtc.PeerConnection].  [pc_id] tells two sessions apart;
   [pc_ice_hooked] says whether the connection's ICE state handler is still
   the one installed on the session. *)
Record PeerConnection : Type := mkPC {
  pc_id : nat;
  pc_servers : list ICEServer;
  pc_signaling : SignalingState;
  pc_local : option SessionDescription;
  pc_remote : option SessionDescription;
  pc_transceivers : list RTPCodecType;
  pc_candidates : list ICECandidateInit;
  pc_ice_hooked : bool
}.

Definition pc_with_signaling (s : SignalingState) (p : PeerConnection) :=
  mkPC (pc_id p) (pc_servers p) s (pc_local p) (pc_remote p)
       (pc_transceivers p) (pc_candidates p) (pc_ice_hooked p).
Definition pc_with_local (d : option SessionDescription) (p : PeerConnection) :=
  mkPC (pc_id p) (pc_servers p) (pc_signaling p) d (pc_remote p)
       (pc_transceivers p) (pc_candidates p) (pc_ice_hooked p).
Definition pc_with_remote (d : option SessionDescription) (p : PeerConnection) :=
  mkPC (pc_id p) (pc_servers p) (pc_signaling p) (pc_local p) d
       (pc_transceivers p) (pc_candidates p) (pc_ice_hooked p).
Definition pc_with_transceivers (l : list RTPCodecType) (p : PeerConnection) :=
  mkPC (pc_id p) (pc_servers p) (pc_signaling p) (pc_local p) (pc_remote p)
       l (pc_candidates p) (pc_ice_hooked p).
Definition pc_with_candidates (l : list ICECandidateInit) (p : PeerConnection) :=
  mkPC (pc_id p) (pc_servers p) (pc_signaling p) (pc_local p) (pc_remote p)
       (pc_transceivers p) l (pc_ice_hooked p).
Definition pc_with_ice_hooked (b : bool) (p : PeerConnection) :=
  mkPC (pc_id p) (pc_servers p) (pc_signaling p) (pc_local p) (pc_remote p)
       (pc_transceivers p) (pc_candidates p) b.

(** ** options.go *)

Record ConnectionVideoOption : Type := mkVideo {
  video_Codec : string;
  video_Direction : string;
  video_Enabled : bool
}.

Record ConnectionAudioOption : Type := mkAudio {
  audio_Direction : string;
  audio_Enabled : bool
}.

Record ConnectionOptions : Type := mkOptions {
  Audio : ConnectionAudioOption;
  Video : ConnectionVideoOption;
  ClientID : string;
  ICEServers : list ICEServer;
  SignalingKey : string
}.

(** ** Errors *)

Inductive err : Type :=
| errorInvalidJSON
| errorInvalidMessageType
| errConnectionAlreadyExists            (* "connection alreay exists" *)
| errWsAlreadyExists                    (* "WS-ALREADY-EXISTS" *)
| errWsOpen (cause : err)               (* "WS-OPEN-ERROR: %w" *)
| errUnsupportedVideoCodec (codec : string)
| errTransport                          (* an error of the websocket library *)
| errEngine.                            (* an error of the session engine *)

(* A Go [error]: [None] is nil. *)
Definition error : Type := option err.

(** ** Callbacks

    A handler field holds either the empty function that [Disconnect]
    installs or a function the consumer registered, known by a tag. *)

Inductive handler : Type :=
| NoOp
| Consumer (tag : nat).

Inductive call : Type :=
| CallOnOpen (h : handler) (metadata : option json)
| CallOnConnect (h : handler)
| CallOnDisconnect (h : handler) (reason : string) (e : error)
| CallOnBye (h : handler).

(** ** The Connection struct (connection.go, lines 27-66) *)

Record Connection : Type := mkConnection {
  SignalingURL : string;
  RoomID : string;
  Options : ConnectionOptions;
  Debug : bool;
  AuthnMetadata : option json;

  authzMetadata : option json;
  connectionState : ICEConnectionState;
  connectionID : string;

  ws : option nat;
  pc : option PeerConnection;
  pcConfig : list ICEServer;
  isOffer : bool;
  isExistClient : bool;

  onOpenHandler : handler;
  onConnectHandler : handler;
  onDisconnectHandler : handler;
  onTrackPacketHandler : handler;
  onByeHandler : handler
}.

Definition set_authzMetadata (v : option json) (c : Connection) :=
  mkConnection (SignalingURL c) (RoomID c) (Options c) (Debug c) (AuthnMetadata c)
    v (connectionState c) (connectionID c)
    (ws c) (pc c) (pcConfig c) (isOffer c) (isExistClient c)
    (onOpenHandler c) (onConnectHandler c) (onDisconnectHandler c)
    (onTrackPacketHandler c) (onByeHandler c).
Definition set_connectionState (v : ICEConnectionState) (c : Connection) :=
  mkConnection (SignalingURL c) (RoomID c) (Options c) (Debug c) (AuthnMetadata c)
    (authzMetadata c) v (connectionID c)
    (ws c) (pc c) (pcConfig c) (isOffer c) (isExistClient c)
    (onOpenHandler c) (onConnectHandler c) (onDisconnectHandler c)
    (onTrackPacketHandler c) (onByeHandler c).
Definition set_connectionID (v : string) (c : Connection) :=
  mkConnection (SignalingURL c) (RoomID c) (Options c) (Debug c) (AuthnMetadata c)
    (authzMetadata c) (connectionState c) v
    (ws c) (pc c) (pcConfig c) (isOffer c) (isExistClient c)
    (onOpenHandler c) (onConnectHandler c) (onDisconnectHandler c)
    (onTrackPacketHandler c) (onByeHandler c).
Definition set_ws (v : option nat) (c : Connection) :=
  mkConnection (SignalingURL c) (RoomID c) (Options c) (Debug c) (AuthnMetadata c)
    (authzMetadata c) (connectionState c) (connectionID c)
    v (pc c) (pcConfig c) (isOffer c) (isExistClient c)
    (onOpenHandler c) (onConnectHandler c) (onDisconnectHandler c)
    (onTrackPacketHandler c) (onByeHandler c).
Definition set_pc (v : option PeerConnection) (c : Connection) :=
  mkConnection (SignalingURL c) (RoomID c) (Options c) (Debug c) (AuthnMetadata c)
    (authzMetadata c) (connectionState c) (connectionID c)
    (ws c) v (pcConfig c) (isOffer c) (isExistClient c)
    (onOpenHandler c) (onConnectHandler c) (onDisconnectHandler c)
    (onTrackPacketHandler c) (onByeHandler c).
Definition set_pcConfig (v : list ICEServer) (c : Connection) :=
  mkConnection (SignalingURL c) (RoomID c) (Options c) (Debug c) (AuthnMetadata c)
    (authzMetadata c) (connectionState c) (connectionID c)
    (ws c) (pc c) v (isOffer c) (isExistClient c)
    (onOpenHandler c) (onConnectHandler c) (onDisconnectHandler c)
    (onTrackPacketHandler c) (onByeHandler c).
Definition set_isOffer (v : bool) (c : Connection) :=
  mkConnection (SignalingURL c) (RoomID c) (Options c) (Debug c) (AuthnMetadata c)
    (authzMetadata c) (connectionState c) (connectionID c)
    (ws c) (pc c) (pcConfig c) v (isExistClient c)
    (onOpenHandler c) (onConnectHandler c) (onDisconnectHandler c)
    (onTrackPacketHandler c) (onByeHandler c).
Definition set_isExistClient (v : bool) (c : Connection) :=
  mkConnection (SignalingURL c) (RoomID c) (Options c) (Debug c) (AuthnMetadata c)
    (authzMetadata c) (connectionState c) (connectionID c)
    (ws c) (pc c) (pcConfig c) (isOffer c) v
    (onOpenHandler c) (onConnectHandler c) (onDisconnectHandler c)
    (onTrackPacketHandler c) (onByeHandler c).
Definition set_onOpenHandler (v : handler) (c : Connection) :=
  mkConnection (SignalingURL c) (RoomID c) (Options c) (Debug c) (AuthnMetadata c)
    (authzMetadata c) (connectionState c) (connectionID c)
    (ws c) (pc c) (pcConfig c) (isOffer c) (isExistClient c)
    v (onConnectHandler c) (onDisconnectHandler c)
    (onTrackPacketHandler c) (onByeHandler c).
Definition set_onConnectHandler (v : handler) (c : Connection) :=
  mkConnection (SignalingURL c) (RoomID c) (Options c) (Debug c) (AuthnMetadata c)
    (authzMetadata c) (connectionState c) (connectionID c)
    (ws c) (pc c) (pcConfig c) (isOffer c) (isExistClient c)
    (onOpenHandler c) v (onDisconnectHandler c)
    (onTrackPacketHandler c) (onByeHandler c).
Definition set_onDisconnectHandler (v : handler) (c : Connection) :=
  mkConnection (SignalingURL c) (RoomID c) (Options c) (Debug c) (AuthnMetadata c)
    (authzMetadata c) (connectionState c) (connectionID c)
    (ws c) (pc c) (pcConfig c) (isOffer c) (isExistClient c)
    (onOpenHandler c) (onConnectHandler c) v
    (onTrackPacketHandler c) (onByeHandler c).
Definition set_onTrackPacketHandler (v : handler) (c : Connection) :=
  mkConnection (SignalingURL c) (RoomID c) (Options c) (Debug c) (AuthnMetadata c)
    (authzMetadata c) (connectionState c) (connectionID c)
    (ws c) (pc c) (pcConfig c) (isOffer c) (isExistClient c)
    (onOpenHandler c) (onConnectHandler c) (onDisconnectHandler c)
    v (onByeHandler c).
Definition set_onByeHandler (v : handler) (c : Connection) :=
  mkConnection (SignalingURL c) (RoomID c) (Options c) (Debug c) (AuthnMetadata c)
    (authzMetadata c) (connectionState c) (connectionID c)
    (ws c) (pc c) (pcConfig c) (isOffer c) (isExistClient c)
    (onOpenHandler c) (onConnectHandler c) (onDisconnectHandler c)
    (onTrackPacketHandler c) v.

(** ** Messages written to the websocket *)

Record registerMessage : Type := mkRegister {
  reg_Type : string;
  reg_RoomID : string;
  reg_ClientID : string;
  reg_AuthnMetadata : option json;
  reg_SignalingKey : option string;
  reg_AyameClient : option string;
  reg_Environment : option string
}.

Inductive outMsg : Type :=
| OutPong                               (* &pongMessage{Type: "pong"} *)
| OutRegister (m : registerMessage)
| OutSdp (d : SessionDescription).

(** ** Events *)

Inductive task : Type :=
| TaskRecv                              (* go c.recv(ctx, messageChannel) *)
| TaskMain                              (* go c.main(cancel, messageChannel) *)
| TaskClosePoll.                        (* the ticker of closePeerConnection *)

Inductive event : Type :=
| EvDial (url : string) (conn : option nat)
| EvGo (t : task)
| EvWrite (h : nat) (m : outMsg) (ok : bool)
| EvWsClose (h : nat)
| EvNewPeerConnection (servers : list ICEServer) (id : option nat)
| EvAddTransceiver (id : nat) (k : RTPCodecType) (ok : bool)
| EvCreateOffer (id : nat) (ok : bool)
| EvCreateAnswer (id : nat) (ok : bool)
| EvSetLocalDescription (id : nat) (d : SessionDescription) (ok : bool)
| EvSetRemoteDescription (id : nat) (d : SessionDescription) (ok : bool)
| EvAddICECandidate (id : nat) (cand : ICECandidateInit) (ok : bool)
| EvPcClose (id : nat)
| EvCall (k : call)
| EvCancel.

(** ** The outside world *)

Record Reply : Type := mkReply {
  ok : bool;             (* does the call succeed *)
  text : string          (* the SDP text, when the call creates one *)
}.

Record Env : Type := mkEnv {
  oracle : nat -> Reply;
  platform : string      (* runtime.GOOS + " " + runtime.GOARCH *)
}.

(* [clock] counts the oracle replies consumed, [next_id] names the next
   websocket or session, [abandoned] keeps the sessions the connection let
   go of without closing them. *)
Record World : Type := mkWorld {
  conn : Connection;
  clock : nat;
  next_id : nat;
  abandoned : list PeerConnection
}.

(** ** The monad *)

Definition M (A : Type) : Type := World -> A * World * list event.

Definition ret {A : Type} (a : A) : M A := fun w => (a, w, []).

Definition bind {A B : Type} (m : M A) (k : A -> M B) : M B :=
  fun w =>
    match m w with
    | (a, w1, e1) =>
        match k a w1 with
        | (b, w2, e2) => (b, w2, e1 ++ e2)
        end
    end.

Declare Scope go_scope.
Delimit Scope go_scope with go.
Notation "x <- m ;; k" := (bind m (fun x => k))
  (at level 61, m at next level, right associativity) : go_scope.
Notation "m ;;; k" := (bind m (fun _ => k))
  (at level 61, right associativity) : go_scope.
Local Open Scope go_scope.

Definition result {A : Type} (r : A * World * list event) : A := fst (fst r).
Definition world_of {A : Type} (r : A * World * list event) : World := snd (fst r).
Definition events {A : Type} (r : A * World * list event) : list event := snd r.

Definition getc : M Connection := fun w => (conn w, w, []).

Definition modc (f : Connection -> Connection) : M unit :=
  fun w => (tt, mkWorld (f (conn w)) (clock w) (next_id w) (abandoned w), []).

Definition emit (e : event) : M unit := fun w => (tt, w, [e]).

Definition fresh : M nat :=
  fun w => (next_id w, mkWorld (conn w) (clock w) (S (next_id w)) (abandoned w), []).

Definition abandon (p : PeerConnection) : M unit :=
  fun w => (tt, mkWorld (conn w) (clock w) (next_id w) (p :: abandoned w), []).

Definition invoke (k : call) : M unit := emit (EvCall k).

(** ** Observations on a trace *)

Definition sdp_written (e : event) : option SessionDescription :=
  match e with
  | EvWrite _ (OutSdp d) _ => Some d
  | _ => None
  end.

Fixpoint sdp_writes (l : list event) : list SessionDescription :=
  match l with
  | [] => []
  | e :: rest =>
      match sdp_written e with
      | Some d => d :: sdp_writes rest
      | None => sdp_writes rest
      end
  end.

Fixpoint calls (l : list event) : list call :=
  match l with
  | [] => []
  | EvCall k :: rest => k :: calls rest
  | _ :: rest => calls rest
  end.

Fixpoint writes (l : list event) : list outMsg :=
  match l with
  | [] => []
  | EvWrite _ m _ :: rest => m :: writes rest
  | _ :: rest => writes rest
  end.

Definition is_network (e : event) : bool :=
  match e with
  | EvDial _ _ | EvWrite _ _ _ | EvWsClose _ => true
  | _ => false
  end.

Definition consumer_called (l : list event) : bool :=
  existsb (fun k => match k with
                    | CallOnDisconnect (Consumer _) _ _ => true
                    | _ => false
                    end) (calls l).

(** ** External collaborators

    Each call below stands for one call into a library.  Whether it succeeds
    is the oracle's choice, within what the library itself rules out: the
    session engine refuses a description that its signaling-state table
    (WebRTC 4.3.1) does not allow, and refuses work on a closed session. *)

Inductive stateChangeOp : Type :=
| stateChangeOpSetLocal
| stateChangeOpSetRemote.

Definition nextSignalingState (cur : SignalingState) (op : stateChangeOp)
    (t : SDPType) : option SignalingState :=
  match cur, op, t with
  | SignalingStateStable, stateChangeOpSetLocal, SDPTypeOffer =>
      Some SignalingStateHaveLocalOffer
  | SignalingStateStable, stateChangeOpSetRemote, SDPTypeOffer =>
      Some SignalingStateHaveRemoteOffer
  | SignalingStateHaveLocalOffer, stateChangeOpSetRemote, SDPTypeAnswer =>
      Some SignalingStateStable
  | SignalingStateHaveLocalOffer, stateChangeOpSetRemote, SDPTypePranswer =>
      Some SignalingStateHaveRemotePranswer
  | SignalingStateHaveRemotePranswer, stateChangeOpSetRemote, SDPTypeAnswer =>
      Some SignalingStateStable
  | SignalingStateHaveRemoteOffer, stateChangeOpSetLocal, SDPTypeAnswer =>
      Some SignalingStateStable
  | SignalingStateHaveRemoteOffer, stateChangeOpSetLocal, SDPTypePranswer =>
      Some SignalingStateHaveLocalPranswer
  | SignalingStateHaveLocalPranswer, stateChangeOpSetLocal, SDPTypeAnswer =>
      Some SignalingStateStable
  | _, _, _ => None
  end.

Definition is_closed (p : PeerConnection) : bool :=
  match pc_signaling p with
  | SignalingStateClosed => true
  | _ => false
  end.

Definition is_have_local_offer (p : PeerConnection) : bool :=
  match pc_signaling p with
  | SignalingStateHaveLocalOffer => true
  | _ => false
  end.

Definition has_remote (p : PeerConnection) : bool :=
  match pc_remote p with
  | Some _ => true
  | None => false
  end.

Section Program.

Variable env : Env.

Definition ask : M Reply :=
  fun w => (oracle env (clock w),
            mkWorld (conn w) (S (clock w)) (next_id w) (abandoned w), []).

(* websocket.Dial *)
Definition Dial (url : string) : M (option nat) :=
  r <- ask ;;
  if ok r
  then h <- fresh ;; emit (EvDial url (Some h)) ;;; ret (Some h)
  else emit (EvDial url None) ;;; ret None.

(* wsjson.Write *)
Definition Write (h : nat) (v : outMsg) : M error :=
  r <- ask ;;
  emit (EvWrite h v (ok r)) ;;;
  ret (if ok r then None else Some errTransport).

(* api.NewPeerConnection *)
Definition NewPeerConnection (cfg : list ICEServer) : M (PeerConnection + err) :=
  r <- ask ;;
  if ok r
  then id <- fresh ;;
       emit (EvNewPeerConnection cfg (Some id)) ;;;
       ret (inl (mkPC id cfg SignalingStateStable None None [] [] false))
  else emit (EvNewPeerConnection cfg None) ;;; ret (inr errEngine).

(* pc.AddTransceiver *)
Definition AddTransceiver (p : PeerConnection) (k : RTPCodecType)
    : M (PeerConnection * error) :=
  r <- ask ;;
  let good := ok r && negb (is_closed p) in
  emit (EvAddTransceiver (pc_id p) k good) ;;;
  ret (if good
       then (pc_with_transceivers (pc_transceivers p ++ [k]) p, None)
       else (p, Some errEngine)).

(* pc.CreateOffer *)
Definition CreateOffer (p : PeerConnection) : M (SessionDescription + err) :=
  r <- ask ;;
  let good := ok r && negb (is_closed p) in
  emit (EvCreateOffer (pc_id p) good) ;;;
  ret (if good then inl (mkSD SDPTypeOffer (text r)) else inr errEngine).

(* pc.CreateAnswer *)
Definition CreateAnswer (p : PeerConnection) : M (SessionDescription + err) :=
  r <- ask ;;
  let good := ok r && negb (is_closed p) && has_remote p in
  emit (EvCreateAnswer (pc_id p) good) ;;;
  ret (if good then inl (mkSD SDPTypeAnswer (text r)) else inr errEngine).

(* pc.SetLocalDescription *)
Definition SetLocalDescription (p : PeerConnection) (d : SessionDescription)
    : M (PeerConnection * error) :=
  r <- ask ;;
  match (if ok r
         then nextSignalingState (pc_signaling p) stateChangeOpSetLocal (sd_type d)
         else None) with
  | Some s =>
      emit (EvSetLocalDescription (pc_id p) d true) ;;;
      ret (pc_with_local (Some d) (pc_with_signaling s p), None)
  | None =>
      emit (EvSetLocalDescription (pc_id p) d false) ;;;
      ret (p, Some errEngine)
  end.

(* pc.SetRemoteDescription *)
Definition SetRemoteDescription (p : PeerConnection) (d : SessionDescription)
    : M (PeerConnection * error) :=
  r <- ask ;;
  match (if ok r
         then nextSignalingState (pc_signaling p) stateChangeOpSetRemote (sd_type d)
         else None) with
  | Some s =>
      emit (EvSetRemoteDescription (pc_id p) d true) ;;;
      ret (pc_with_remote (Some d) (pc_with_signaling s p), None)
  | None =>
      emit (EvSetRemoteDescription (pc_id p) d false) ;;;
      ret (p, Some errEngine)
  end.

(* pc.AddICECandidate *)
Definition AddICECandidate (p : PeerConnection) (cand : ICECandidateInit)
    : M (PeerConnection * error) :=
  r <- ask ;;
  let good := ok r && has_remote p in
  emit (EvAddICECandidate (pc_id p) cand good) ;;;
  ret (if good
       then (pc_with_candidates (pc_candidates p ++ [cand]) p, None)
       else (p, Some errEngine)).

(* pc.Close: the session reports the closed signaling state once it returns;
   the error it may return is dropped by the caller. *)
Definition Close (p : PeerConnection) : M PeerConnection :=
  emit (EvPcClose (pc_id p)) ;;;
  ret (pc_with_signaling SignalingStateClosed p).

(** ** connection.go *)

(* lines 412-435.  The goroutine started here is [closePollTick] below. *)
Definition closePeerConnection : M unit :=
  c <- getc ;;
  match pc c with
  | None => ret tt
  | Some p =>
      if is_closed p
      then modc (set_pc None)
      else
        let p1 := pc_with_ice_hooked false p in
        modc (set_pc (Some p1)) ;;;
        emit (EvGo TaskClosePoll) ;;;
        p2 <- Close p1 ;;
        modc (set_pc (Some p2))
  end.

(* One round of the ticker loop of lines 422-433; [true] when the goroutine
   returns. *)
Definition closePollTick : M bool :=
  c <- getc ;;
  match pc c with
  | None => ret true
  | Some p =>
      if is_closed p
      then modc (set_pc None) ;;; ret true
      else ret false
  end.

(* lines 437-447 *)
Definition closeWebSocketConnection : M unit :=
  c <- getc ;;
  match ws c with
  | None => ret tt
  | Some h =>
      emit (EvWsClose h) ;;;
      modc (set_ws None)
  end.

(* lines 79-96 *)
Definition Disconnect : M unit :=
  closePeerConnection ;;;
  closeWebSocketConnection ;;;
  modc (set_authzMetadata None) ;;;
  modc (set_connectionID "") ;;;
  modc (set_connectionState ICEConnectionStateNew) ;;;
  modc (set_isOffer false) ;;;
  modc (set_isExistClient false) ;;;
  modc (set_onOpenHandler NoOp) ;;;
  modc (set_onConnectHandler NoOp) ;;;
  modc (set_onDisconnectHandler NoOp) ;;;
  modc (set_onTrackPacketHandler NoOp) ;;;
  modc (set_onByeHandler NoOp).

(* lines 99-131 *)
Definition OnOpen (f : handler) : M unit := modc (set_onOpenHandler f).
Definition OnConnect (f : handler) : M unit := modc (set_onConnectHandler f).
Definition OnDisconnect (f : handler) : M unit := modc (set_onDisconnectHandler f).
Definition OnTrackPacket (f : handler) : M unit := modc (set_onTrackPacketHandler f).
Definition OnBye (f : handler) : M unit := modc (set_onByeHandler f).

(* lines 161-169 *)
Definition openWS : M (nat + err) :=
  c <- getc ;;
  r <- Dial (SignalingURL c) ;;
  match r with
  | None => ret (inr errTransport)
  | Some h => ret (inl h)
  end.

(* lines 171-182 *)
Definition sendMsg (v : outMsg) : M error :=
  c <- getc ;;
  match ws c with
  | Some h =>
      e <- Write h v ;;
      match e with
      | Some x => ret (Some x)
      | None => ret None
      end
  | None => ret None
  end.

(* lines 184-193 *)
Definition sendPongMessage : M error :=
  e <- sendMsg OutPong ;;
  match e with
  | Some x => ret (Some x)
  | None => ret None
  end.

(* lines 195-217 *)
Definition sendRegisterMessage : M error :=
  c <- getc ;;
  let msg :=
    mkRegister "register" (RoomID c) (ClientID (Options c))
      (AuthnMetadata c)
      (if String.eqb (SignalingKey (Options c)) ""
       then None else Some (SignalingKey (Options c)))
      (Some "go-ayame v0.1.0")
      (Some (platform env)) in
  e <- sendMsg (OutRegister msg) ;;
  match e with
  | Some x => ret (Some x)
  | None => ret None
  end.

(* lines 219-221 *)
Definition sendSdp (d : SessionDescription) : M unit :=
  sendMsg (OutSdp d) ;;; ret tt.

(* lines 223-332.  The three handlers set on the fresh session (OnTrack,
   OnICEConnectionStateChange, OnSignalingStateChange) are summed up in
   [pc_ice_hooked]; a session that is dropped unclosed goes to [abandoned]. *)
Definition createPeerConnection : M error :=
  c <- getc ;;
  if negb (String.eqb (video_Codec (Video (Options c))) "VP8")
  then ret (Some (errUnsupportedVideoCodec (video_Codec (Video (Options c)))))
  else
    r <- NewPeerConnection (pcConfig c) ;;
    match r with
    | inr e => ret (Some e)
    | inl p0 =>
        r1 <- (if audio_Enabled (Audio (Options c))
               then AddTransceiver p0 RTPCodecTypeAudio
               else ret (p0, None)) ;;
        match snd r1 with
        | Some e => abandon (fst r1) ;;; ret (Some e)
        | None =>
            r2 <- (if video_Enabled (Video (Options c))
                   then AddTransceiver (fst r1) RTPCodecTypeVideo
                   else ret (fst r1, None)) ;;
            match snd r2 with
            | Some e => abandon (fst r2) ;;; ret (Some e)
            | None =>
                let p := pc_with_ice_hooked true (fst r2) in
                c1 <- getc ;;
                match pc c1 with
                | Some old =>
                    abandon old ;;;
                    modc (set_pc (Some p)) ;;;
                    c2 <- getc ;;
                    invoke (CallOnOpen (onOpenHandler c2) (authzMetadata c2))
                | None => modc (set_pc (Some p))
                end ;;;
                ret None
            end
        end
    end.

(* lines 334-350 *)
Definition sendOffer : M error :=
  c <- getc ;;
  match pc c with
  | None => ret None
  | Some p =>
      r <- CreateOffer p ;;
      match r with
      | inr e => ret (Some e)
      | inl offer =>
          r1 <- SetLocalDescription p offer ;;
          modc (set_pc (Some (fst r1))) ;;;
          match pc_local (fst r1) with
          | Some d => sendSdp d
          | None => ret tt
          end ;;;
          modc (set_isOffer true) ;;;
          ret None
      end
  end.

(* lines 352-369 *)
Definition createAnswer : M error :=
  c <- getc ;;
  match pc c with
  | None => ret None
  | Some p =>
      r <- CreateAnswer p ;;
      match r with
      | inr e =>
          Disconnect ;;;
          c1 <- getc ;;
          invoke (CallOnDisconnect (onDisconnectHandler c1) "CREATE-ANSWER-ERROR" (Some e)) ;;;
          ret (Some e)
      | inl answer =>
          r1 <- SetLocalDescription p answer ;;
          modc (set_pc (Some (fst r1))) ;;;
          match pc_local (fst r1) with
          | Some d => sendSdp d
          | None => ret tt
          end ;;;
          ret None
      end
  end.

(* lines 371-381 *)
Definition setAnswer (sessionDescription : SessionDescription) : M error :=
  c <- getc ;;
  match pc c with
  | None => ret None
  | Some p =>
      r <- SetRemoteDescription p sessionDescription ;;
      modc (set_pc (Some (fst r))) ;;;
      match snd r with
      | Some e => ret (Some e)
      | None => ret None
      end
  end.

(* lines 383-399 *)
Definition setOffer (sessionDescription : SessionDescription) : M error :=
  c <- getc ;;
  match pc c with
  | None => ret None
  | Some p =>
      r <- SetRemoteDescription p sessionDescription ;;
      modc (set_pc (Some (fst r))) ;;;
      match snd r with
      | Some e =>
          Disconnect ;;;
          c1 <- getc ;;
          invoke (CallOnDisconnect (onDisconnectHandler c1) "CREATE-OFFER-ERROR" (Some e)) ;;;
          ret (Some e)
      | None =>
          e <- createAnswer ;;
          match e with
          | Some x => ret (Some x)
          | None => ret None
          end
      end
  end.

(* lines 401-410 *)
Definition addICECandidate (candidate : ICECandidateInit) : M unit :=
  c <- getc ;;
  match pc c with
  | None => ret tt
  | Some p =>
      r <- AddICECandidate p candidate ;;
      modc (set_pc (Some (fst r)))
  end.

(* lines 139-159 *)
Definition signaling : M error :=
  c <- getc ;;
  match ws c with
  | Some _ => ret (Some errWsAlreadyExists)
  | None =>
      r <- openWS ;;
      match r with
      | inr e => ret (Some (errWsOpen e))
      | inl h =>
          modc (set_ws (Some h)) ;;;
          emit (EvGo TaskRecv) ;;;
          emit (EvGo TaskMain) ;;;
          sendRegisterMessage
      end
  end.

(* lines 69-76 *)
Definition Connect : M error :=
  c <- getc ;;
  match ws c, pc c with
  | None, None => signaling ;;; ret None
  | _, _ => ret (Some errConnectionAlreadyExists)
  end.

(* The handler given to pc.OnICEConnectionStateChange, lines 304-319. *)
Definition onICEConnectionStateChange (s : ICEConnectionState) : M unit :=
  c <- getc ;;
  match connectionState c, s with
  | ICEConnectionStateNew, ICEConnectionStateNew
  | ICEConnectionStateChecking, ICEConnectionStateChecking
  | ICEConnectionStateConnected, ICEConnectionStateConnected
  | ICEConnectionStateCompleted, ICEConnectionStateCompleted
  | ICEConnectionStateDisconnected, ICEConnectionStateDisconnected
  | ICEConnectionStateFailed, ICEConnectionStateFailed
  | ICEConnectionStateClosed, ICEConnectionStateClosed => ret tt
  | _, _ =>
      modc (set_connectionState s) ;;;
      match s with
      | ICEConnectionStateConnected =>
          modc (set_isOffer false) ;;;
          c1 <- getc ;;
          invoke (CallOnConnect (onConnectHandler c1))
      | ICEConnectionStateDisconnected
      | ICEConnectionStateFailed =>
          Disconnect ;;;
          c1 <- getc ;;
          invoke (CallOnDisconnect (onDisconnectHandler c1)
                    "ICE-CONNECTION-STATE-FAILED" None)
      | _ => ret tt
      end
  end.

(* The end of recv, lines 486-492, once the queue is closed and main is
   done. *)
Definition recvExit : M unit :=
  Disconnect ;;;
  c <- getc ;;
  invoke (CallOnDisconnect (onDisconnectHandler c) "EXIT-RECV" None).

(** ** Decoding of inbound frames

    The message structs and [unmarshalMessage] are declared in another file
    of the package.  The fields follow the wire shapes of the protocol; the
    rules are those of [encoding/json]: a key that is absent or null leaves
    the zero value, a value of the wrong kind is an error. *)

Definition field_string (k : string) (o : list (string * json)) : option string :=
  match lookup k o with
  | None | Some JNull => Some ""
  | Some (JStr s) => Some s
  | Some _ => None
  end.

Definition field_opt_string (k : string) (o : list (string * json))
    : option (option string) :=
  match lookup k o with
  | None | Some JNull => Some None
  | Some (JStr s) => Some (Some s)
  | Some _ => None
  end.

Definition field_bool (k : string) (o : list (string * json)) : option bool :=
  match lookup k o with
  | None | Some JNull => Some false
  | Some (JBool b) => Some b
  | Some _ => None
  end.

(* A [*interface{}] field takes any value. *)
Definition field_any (k : string) (o : list (string * json)) : option json :=
  match lookup k o with
  | None | Some JNull => None
  | Some v => Some v
  end.

(* A [*uint16] field. *)
Definition field_opt_uint16 (k : string) (o : list (string * json))
    : option (option Z) :=
  match lookup k o with
  | None | Some JNull => Some None
  | Some (JNum z) => if ((0 <=? z) && (z <? 65536))%Z then Some (Some z) else None
  | Some _ => None
  end.

Fixpoint strings_of (l : list json) : option (list string) :=
  match l with
  | [] => Some []
  | JStr s :: rest =>
      match strings_of rest with
      | Some r => Some (s :: r)
      | None => None
      end
  | JNull :: rest =>
      match strings_of rest with
      | Some r => Some ("" :: r)
      | None => None
      end
  | _ :: _ => None
  end.

Definition field_strings (k : string) (o : list (string * json))
    : option (list string) :=
  match lookup k o with
  | None | Some JNull => Some []
  | Some (JArr l) => strings_of l
  | Some _ => None
  end.

(** Modelled from the spec: the struct [message], of which the source only
    shows the field [Type]; "decoding first extracts only the type
    discriminator". *)
Inductive typeDecode : Type :=
| TypeInvalid                 (* json.Unmarshal returned an error *)
| TypeNilPointer              (* the frame is [null]: the *message is set to nil *)
| TypeTag (t : string).

(* [json.Unmarshal(rawMessage, &message)] of line 497, where [message] is a
   pointer to a struct. *)
Definition decodeType (raw : Frame) : typeDecode :=
  match frame_json raw with
  | None => TypeInvalid
  | Some JNull => TypeNilPointer
  | Some (JObj o) =>
      match field_string "type" o with
      | Some t => TypeTag t
      | None => TypeInvalid
      end
  | Some _ => TypeInvalid
  end.

(** Modelled from the spec: the struct [iceServer] of an accept message,
    [{urls, username?, credential?}]. *)
Record iceServer : Type := mkIceServer {
  Urls : list string;
  UserName : option string;
  Credential' : option string
}.

(** Modelled from the spec: the struct [acceptMessage],
    [{type:"accept", connectionId, authzMetadata?, iceServers?, isExistUser}]. *)
Record acceptMessage : Type := mkAccept {
  ConnectionID : string;
  AuthzMetadata : option json;
  IceServers : option (list iceServer);
  IsExistClient : bool
}.

(** Modelled from the spec: the struct [rejectMessage],
    [{type:"reject", reason?}]. *)
Record rejectMessage : Type := mkReject {
  Reason : string
}.

(** Modelled from the spec: the struct [candidateMessage],
    [{type:"candidate", ice?:{candidate, sdpMid?, sdpMLineIndex?}}]. *)
Record candidateMessage : Type := mkCandidateMessage {
  ICECandidate : option ICECandidateInit
}.

Definition decodeIceServer (v : json) : option iceServer :=
  match v with
  | JNull => Some (mkIceServer [] None None)
  | JObj o =>
      match field_strings "urls" o, field_opt_string "username" o,
            field_opt_string "credential" o with
      | Some u, Some n, Some c => Some (mkIceServer u n c)
      | _, _, _ => None
      end
  | _ => None
  end.

Fixpoint decodeIceServers (l : list json) : option (list iceServer) :=
  match l with
  | [] => Some []
  | v :: rest =>
      match decodeIceServer v, decodeIceServers rest with
      | Some s, Some r => Some (s :: r)
      | _, _ => None
      end
  end.

Definition field_iceServers (o : list (string * json))
    : option (option (list iceServer)) :=
  match lookup "iceServers" o with
  | None | Some JNull => Some None
  | Some (JArr l) =>
      match decodeIceServers l with
      | Some r => Some (Some r)
      | None => None
      end
  | Some _ => None
  end.

(** Modelled from the spec: [unmarshalMessage(c, rawMessage, &acceptMsg)];
    [None] stands for its error, [errorInvalidJSON]. *)
Definition unmarshalAccept (raw : Frame) : option acceptMessage :=
  match frame_json raw with
  | Some (JObj o) =>
      match field_string "connectionId" o, field_iceServers o,
            field_bool "isExistUser" o with
      | Some id, Some srv, Some ex =>
          Some (mkAccept id (field_any "authzMetadata" o) srv ex)
      | _, _, _ => None
      end
  | _ => None
  end.

(** Modelled from the spec: [unmarshalMessage(c, rawMessage, &rejectMsg)]. *)
Definition unmarshalReject (raw : Frame) : option rejectMessage :=
  match frame_json raw with
  | Some (JObj o) =>
      match field_string "reason" o with
      | Some r => Some (mkReject r)
      | None => None
      end
  | _ => None
  end.

(* [unmarshalMessage] into a [webrtc.SessionDescription]; the [type] key is
   the tag that the switch has already matched. *)
Definition unmarshalSessionDescription (t : SDPType) (raw : Frame)
    : option SessionDescription :=
  match frame_json raw with
  | Some (JObj o) =>
      match field_string "sdp" o with
      | Some s => Some (mkSD t s)
      | None => None
      end
  | _ => None
  end.

Definition decodeCandidateInit (v : json) : option ICECandidateInit :=
  match v with
  | JObj o =>
      match field_string "candidate" o, field_opt_string "sdpMid" o,
            field_opt_uint16 "sdpMLineIndex" o with
      | Some c, Some m, Some i => Some (mkCandidate c m i)
      | _, _, _ => None
      end
  | _ => None
  end.

(** Modelled from the spec: [unmarshalMessage(c, rawMessage, &candidateMsg)]. *)
Definition unmarshalCandidate (raw : Frame) : option candidateMessage :=
  match frame_json raw with
  | Some (JObj o) =>
      match lookup "ice" o with
      | None | Some JNull => Some (mkCandidateMessage None)
      | Some v =>
          match decodeCandidateInit v with
          | Some c => Some (mkCandidateMessage (Some c))
          | None => None
          end
      end
  | _ => None
  end.

(* The loop body of lines 520-531. *)
Definition toICEServer (s : iceServer) : ICEServer :=
  mkICEServer (Urls s)
    (match UserName s with Some u => u | None => "" end)
    (Credential' s)
    ICECredentialTypePassword.

(** ** handleMessage (lines 495-581) *)

(* A call either returns an error value or panics. *)
Inductive outcome : Type :=
| Returned (e : error)
| Panicked.

Definition handleMessage (rawMessage : Frame) : M outcome :=
  match decodeType rawMessage with
  | TypeInvalid => ret (Returned (Some errorInvalidJSON))
  | TypeNilPointer => ret Panicked      (* message.Type on a nil pointer, line 502 *)
  | TypeTag t =>
      if String.eqb t "ping" then
        sendPongMessage ;;;
        ret (Returned None)
      else if String.eqb t "bye" then
        c <- getc ;;
        invoke (CallOnBye (onByeHandler c)) ;;;
        Disconnect ;;;
        ret (Returned None)
      else if String.eqb t "accept" then
        match unmarshalAccept rawMessage with
        | None => ret (Returned (Some errorInvalidJSON))
        | Some acceptMsg =>
            modc (set_connectionID (ConnectionID acceptMsg)) ;;;
            modc (set_authzMetadata (AuthzMetadata acceptMsg)) ;;;
            match IceServers acceptMsg with
            | Some (s :: l) => modc (set_pcConfig (map toICEServer (s :: l)))
            | _ => ret tt
            end ;;;
            modc (set_isExistClient (IsExistClient acceptMsg)) ;;;
            createPeerConnection ;;;
            c <- getc ;;
            if isExistClient c
            then e <- sendOffer ;; ret (Returned e)
            else ret (Returned None)
        end
      else if String.eqb t "reject" then
        match unmarshalReject rawMessage with
        | None => ret (Returned (Some errorInvalidJSON))
        | Some rejectMsg =>
            let rejectReason :=
              if String.eqb (Reason rejectMsg) "" then "REJECTED"
              else Reason rejectMsg in
            Disconnect ;;;
            c <- getc ;;
            invoke (CallOnDisconnect (onDisconnectHandler c) rejectReason None) ;;;
            ret (Returned None)
        end
      else if String.eqb t "offer" then
        match unmarshalSessionDescription SDPTypeOffer rawMessage with
        | None => ret (Returned (Some errorInvalidJSON))
        | Some offerMsg =>
            c <- getc ;;
            match pc c with
            | Some p =>
                if is_have_local_offer p
                then createPeerConnection ;;; ret tt
                else ret tt
            | None => ret tt
            end ;;;
            e <- setOffer offerMsg ;;
            ret (Returned e)
        end
      else if String.eqb t "answer" then
        match unmarshalSessionDescription SDPTypeAnswer rawMessage with
        | None => ret (Returned (Some errorInvalidJSON))
        | Some answerMsg =>
            e <- setAnswer answerMsg ;;
            ret (Returned e)
        end
      else if String.eqb t "candidate" then
        match unmarshalCandidate rawMessage with
        | None => ret (Returned (Some errorInvalidJSON))
        | Some candidateMsg =>
            match ICECandidate candidateMsg with
            | Some cand => addICECandidate cand
            | None => ret tt
            end ;;;
            ret (Returned None)
        end
      else
        ret (Returned (Some errorInvalidMessageType))
  end.

(** ** main (lines 449-468)

    The queue is given as the frames that recv put on the channel before
    closing it. *)

Inductive exit : Type :=
| ExitClosed                             (* the channel was closed and drained *)
| ExitError (e : err) (left : list Frame)  (* handleMessage returned an error *)
| ExitPanic (left : list Frame).

Fixpoint dispatch (messageChannel : list Frame) : M exit :=
  match messageChannel with
  | [] => ret ExitClosed
  | rawMessage :: rest =>
      r <- handleMessage rawMessage ;;
      match r with
      | Returned None => dispatch rest
      | Returned (Some e) => ret (ExitError e rest)
      | Panicked => ret (ExitPanic rest)
      end
  end.

Definition main (messageChannel : list Frame) : M exit :=
  x <- dispatch messageChannel ;;
  emit EvCancel ;;;
  ret x.

End Program.

(** Modelled from the spec: the constructor of [Connection], which is not in
    connection.go.  Derived state starts empty, the connectivity phase is
    new, the five handlers are no-op stubs, and the relay-candidate set is
    the fallback set of the options. *)
Definition NewConnection (signalingURL roomID : string)
    (options : ConnectionOptions) (debug : bool) : Connection :=
  mkConnection signalingURL roomID options debug None
    None ICEConnectionStateNew ""
    None None (ICEServers options) false false
    NoOp NoOp NoOp NoOp NoOp.

Definition newWorld (c : Connection) : World := mkWorld c 0 0 [].

(** ** Closed forms used by the statements *)

(* What [closePeerConnection] leaves in the field [pc]. *)
Definition pc_after_close (c : Connection) : option PeerConnection :=
  match pc c with
  | None => None
  | Some p =>
      if is_closed p then None
      else Some (pc_with_signaling SignalingStateClosed (pc_with_ice_hooked false p))
  end.

(* The connection that [Disconnect] leaves. *)
Definition disconnected (c : Connection) : Connection :=
  mkConnection (SignalingURL c) (RoomID c) (Options c) (Debug c) (AuthnMetadata c)
    None ICEConnectionStateNew ""
    None (pc_after_close c) (pcConfig c) false false
    NoOp NoOp NoOp NoOp NoOp.

(* The events of [Disconnect]: session first, transport second. *)
Definition teardown (c : Connection) : list event :=
  match pc c with
  | None => []
  | Some p => if is_closed p then [] else [EvGo TaskClosePoll; EvPcClose (pc_id p)]
  end ++
  match ws c with
  | None => []
  | Some h => [EvWsClose h]
  end.

Definition with_conn (c : Connection) (w : World) : World :=
  mkWorld c (clock w) (next_id w) (abandoned w).

(* The five fields that [Disconnect] clears are at their initial values. *)
Definition derived_initial (c : Connection) : Prop :=
  connectionID c = "" /\ authzMetadata c = None /\ isOffer c = false /\
  isExistClient c = false /\ connectionState c = ICEConnectionStateNew.

Definition handlers_noop (c : Connection) : Prop :=
  onOpenHandler c = NoOp /\ onConnectHandler c = NoOp /\
  onDisconnectHandler c = NoOp /\ onTrackPacketHandler c = NoOp /\
  onByeHandler c = NoOp.

(* The session handle is nil or points to a closed session. *)
Definition session_released (c : Connection) : Prop :=
  match pc c with
  | None => True
  | Some p => pc_signaling p = SignalingStateClosed
  end.

(* Every reply of the collaborators is a success. *)
Definition engine_ok (env : Env) : Prop := forall n, ok (oracle env n) = true.




(* The register message of [sendRegisterMessage]. *)
Definition register_of (env : Env) (c : Connection) : registerMessage :=
  mkRegister "register" (RoomID c) (ClientID (Options c)) (AuthnMetadata c)
    (if String.eqb (SignalingKey (Options c)) ""
     then None else Some (SignalingKey (Options c)))
    (Some "go-ayame v0.1.0") (Some (platform env)).

(* The relay-candidate set that the accept branch leaves in [pcConfig]
   (lines 517-533). *)
Definition servers_after_accept (m : acceptMessage) (c : Connection) : list ICEServer :=
  match IceServers m with
  | Some (s :: l) => map toICEServer (s :: l)
  | _ => pcConfig c
  end.

(* The connection after the assignments of the accept branch, lines 515-535,
   before the session is created. *)
Definition accepted_conn (m : acceptMessage) (c : Connection) : Connection :=
  set_isExistClient (IsExistClient m)
    (match IceServers m with
     | Some (s :: l) => set_pcConfig (map toICEServer (s :: l))
     | _ => fun c' => c'
     end (set_authzMetadata (AuthzMetadata m) (set_connectionID (ConnectionID m) c))).

Arguments accepted_conn : simpl never.

(* The session that [createPeerConnection] stores when every engine call
   succeeds. *)
Definition fresh_session (c : Connection) (id : nat) : PeerConnection :=
  mkPC id (pcConfig c) SignalingStateStable None None
    ((if audio_Enabled (Audio (Options c)) then [RTPCodecTypeAudio] else []) ++
     (if video_Enabled (Video (Options c)) then [RTPCodecTypeVideo] else []))
    [] true.

Definition transceiver_events (c : Connection) (id : nat) : list event :=
  (if audio_Enabled (Audio (Options c))
   then [EvAddTransceiver id RTPCodecTypeAudio true] else []) ++
  (if video_Enabled (Video (Options c))
   then [EvAddTransceiver id RTPCodecTypeVideo true] else []).

Definition is_sdp_write (e : event) : bool :=
  match sdp_written e with
  | Some _ => true
  | None => false
  end.

(* No run of [m] causes an event of the class [bad]. *)
Definition avoids {A : Type} (bad : event -> bool) (m : M A) : Prop :=
  forall w, existsb bad (events (m w)) = false.

(** ** Further observations *)

Definition is_call (e : event) : bool :=
  match e with
  | EvCall _ => true
  | _ => false
  end.

Definition is_close (e : event) : bool :=
  match e with
  | EvPcClose _ | EvWsClose _ => true
  | _ => false
  end.

Definition is_write (e : event) : bool :=
  match e with
  | EvWrite _ _ _ => true
  | _ => false
  end.

(* A call of the on-disconnect field that reaches a consumer's function. *)
Definition is_consumer_disconnect (e : event) : bool :=
  match e with
  | EvCall (CallOnDisconnect (Consumer _) _ _) => true
  | _ => false
  end.

(* No run of [m] changes what [f] reads from the connection. *)
Definition keeps {A X : Type} (f : Connection -> X) (m : M A) : Prop :=
  forall w, f (conn (world_of (m w))) = f (conn w).

(* The fields that the consumer sets when building the connection. *)
Definition config (c : Connection)
    : string * string * ConnectionOptions * bool * option json :=
  (SignalingURL c, RoomID c, Options c, Debug c, AuthnMetadata c).

(* What an accept message assigns. *)
Definition accept_fields (c : Connection) : string * option json * bool :=
  (connectionID c, authzMetadata c, isExistClient c).

(* What a peer or a consumer can notice: a close, a callback, a frame. *)
Definition is_reaction (e : event) : bool :=
  is_close e || is_call e || is_write e.

(* Everything but the session handle. *)
Definition besides_session (c : Connection) : Connection := set_pc None c.

Definition is_ping (raw : Frame) : bool :=
  match decodeType raw with
  | TypeTag t => String.eqb t "ping"
  | _ => false
  end.

(** ** Scenarios *)

Module Scenario.

Definition okEnv : Env := mkEnv (fun _ => mkReply true "v=0") "linux amd64".

(* Only the n-th external call fails. *)
Definition failAt (n : nat) : Env :=
  mkEnv (fun k => mkReply (negb (Nat.eqb k n)) "v=0") "linux amd64".

Definition fallback : ICEServer :=
  mkICEServer ["stun:fallback.example"] "" None ICECredentialTypePassword.

Definition relayed : ICEServer :=
  mkICEServer ["turn:relay.example"] "u" (Some "p") ICECredentialTypePassword.

Definition options (codec : string) : ConnectionOptions :=
  mkOptions (mkAudio "recvonly" true) (mkVideo codec "recvonly" true)
    "client" [fallback] "".

Definition start (codec : string) : World :=
  newWorld (NewConnection "wss://relay.example/signaling" "room" (options codec) false).

Definition frame (j : json) : Frame := mkFrame 64 (Some j).

Definition accept (isExistUser : bool) : Frame :=
  frame (JObj [("type", JStr "accept"); ("connectionId", JStr "c1");
               ("isExistUser", JBool isExistUser)]).

Definition acceptWithServers : Frame :=
  frame (JObj [("type", JStr "accept"); ("connectionId", JStr "c1");
               ("authzMetadata", JObj [("role", JStr "guest")]);
               ("iceServers",
                JArr [JObj [("urls", JArr [JStr "turn:relay.example"]);
                            ("username", JStr "u"); ("credential", JStr "p")]]);
               ("isExistUser", JBool false)]).

Definition reject : Frame :=
  frame (JObj [("type", JStr "reject"); ("reason", JStr "full")]).

Definition offer : Frame :=
  frame (JObj [("type", JStr "offer"); ("sdp", JStr "remote-offer")]).

Definition answer : Frame :=
  frame (JObj [("type", JStr "answer"); ("sdp", JStr "remote-answer")]).

Definition candidate : Frame :=
  frame (JObj [("type", JStr "candidate");
               ("ice", JObj [("candidate", JStr "candidate:1 1 UDP 1 10.0.0.1 9 typ host");
                             ("sdpMid", JStr "0"); ("sdpMLineIndex", JNum 0)])]).

Definition ping : Frame := frame (JObj [("type", JStr "ping")]).

Definition bye : Frame := frame (JObj [("type", JStr "bye")]).



(* The four bytes n, u, l, l. *)
Definition null : Frame := mkFrame 4 (Some JNull).


(* Run [k] in the world that [m] leaves. *)
Definition next {A B : Type} (m : M A) (k : M B) : M B := bind m (fun _ => k).

(* A consumer registers its on-disconnect handler and connects. *)
Definition registered (env : Env) (codec : string) : World :=
  world_of (next (OnDisconnect (Consumer 7)) (Connect env) (start codec)).

(* Connected, accepted, session created. *)
Definition accepted (env : Env) (isExistUser : bool) : World :=
  world_of (next (Connect env) (handleMessage env (accept isExistUser)) (start "VP8")).

(* A first session whose accept carried relay servers, then Disconnect, one
   round of the close ticker, and a second Connect on the same Connection. *)
Definition reconnected : World :=
  world_of
    (next (Connect okEnv)
       (next (handleMessage okEnv acceptWithServers)
          (next Disconnect (next closePollTick (Connect okEnv))))
       (start "VP8")).

End Scenario.

(** ** Tactics *)

(* Case analysis on an innermost scrutinee of the goal. *)
Ltac break_inner :=
  match goal with
  | |- context [match ?x with _ => _ end] =>
      lazymatch x with
      | context [match _ with _ => _ end] => fail
      | _ => destruct x eqn:?
      end
  end.

(** ** Lemmas on the monad and on teardown *)


Lemma Disconnect_closed_form (w : World) :
  Disconnect w = (tt, with_conn (disconnected (conn w)) w, teardown (conn w)).
Proof.
  destruct w as [c k n a]. destruct c; simpl in *.
  unfold Disconnect, closePeerConnection, closeWebSocketConnection, bind, getc, modc,
    Close, emit, ret, with_conn, disconnected, teardown, pc_after_close; simpl.
  destruct pc0 as [p|]; [destruct (is_closed p)|]; destruct ws0; reflexivity.
Qed.

(* The constructor starts from the values that [Disconnect] restores. *)
Lemma NewConnection_initial (url room : string) (options : ConnectionOptions)
    (debug : bool) :
  derived_initial (NewConnection url room options debug) /\
  handlers_noop (NewConnection url room options debug) /\
  ws (NewConnection url room options debug) = None /\
  pc (NewConnection url room options debug) = None.
Proof. unfold derived_initial, handlers_noop. cbn. repeat split. Qed.

(* Registration replaces the handler. *)
Lemma OnDisconnect_registers (f : handler) (w : World) :
  onDisconnectHandler (conn (world_of (OnDisconnect f w))) = f.
Proof. reflexivity. Qed.

(* The read task ends with a teardown followed by a call of the on-disconnect
   field, which by then is the stub. *)
Lemma recvExit_calls_stub (w : World) :
  recvExit w =
    (tt, with_conn (disconnected (conn w)) w,
     teardown (conn w) ++ [EvCall (CallOnDisconnect NoOp "EXIT-RECV" None)]).
Proof.
  unfold recvExit, bind. rewrite Disconnect_closed_form.
  destruct w as [c k n a]. reflexivity.
Qed.

(* The same order of statements in the ICE state handler. *)
Lemma ice_failure_calls_stub (w : World) :
  connectionState (conn w) <> ICEConnectionStateFailed ->
  onICEConnectionStateChange ICEConnectionStateFailed w =
    (tt, with_conn (disconnected (conn w)) w,
     teardown (conn w) ++
     [EvCall (CallOnDisconnect NoOp "ICE-CONNECTION-STATE-FAILED" None)]).
Proof.
  intros H. unfold onICEConnectionStateChange, bind, getc.
  destruct (connectionState (conn w)) eqn:E; try (now elim H);
    unfold modc at 1; rewrite Disconnect_closed_form;
    destruct w as [c k n a]; reflexivity.
Qed.

(* A frame that is the JSON literal null leaves a nil pointer behind, which
   line 502 dereferences. *)
Lemma null_frame_panics (env : Env) (w : World) (rest : list Frame) :
  handleMessage env Scenario.null w = (Panicked, w, []) /\
  result (main env (Scenario.null :: rest) w) = ExitPanic rest.
Proof. split; reflexivity. Qed.

(** ** Teardown *)

(** C2 (as amended).  After any call to [Disconnect] the connection id, the
    authorization metadata, the offerer flag, the remote-peer flag and the
    connectivity phase are at their initial values, the five handlers are
    no-op stubs and the transport handle is nil.  The session handle is nil
    or refers to a session that is already closed.  A second call closes
    nothing and emits nothing, and changes nothing except that it clears a
    session handle left behind; from then on [Disconnect] changes nothing. *)
Theorem Disconnect_resets_derived_state (w : World) :
  let w1 := world_of (Disconnect w) in
  let w2 := world_of (Disconnect w1) in
  derived_initial (conn w1) /\ handlers_noop (conn w1) /\
  ws (conn w1) = None /\ session_released (conn w1) /\
  events (Disconnect w1) = [] /\
  w2 = with_conn (set_pc None (conn w1)) w1 /\
  Disconnect w2 = (tt, w2, []).
Proof.
  cbv zeta. rewrite !Disconnect_closed_form.
  destruct w as [c k n a]; destruct c; simpl.
  unfold derived_initial, handlers_noop, session_released, world_of, events,
    with_conn, disconnected, teardown, pc_after_close, set_pc; simpl.
  destruct pc0 as [p|]; [destruct (is_closed p) eqn:E|]; simpl;
    repeat split; reflexivity.
Qed.

(** C2 (counterexample).  Connect, receive accept, then call [Disconnect]:
    the session handle is still there afterwards, a second [Disconnect] does
    change the connection, and a [Connect] issued in between is refused. *)
Lemma Disconnect_keeps_session_handle :
  let w1 := world_of (Disconnect (Scenario.accepted Scenario.okEnv false)) in
  ~ (pc (conn w1) = None /\ Disconnect w1 = (tt, w1, [])) /\
  result (Connect Scenario.okEnv w1) = Some errConnectionAlreadyExists.
Proof.
  cbv zeta. split.
  - intros [H _]. vm_compute in H. discriminate H.
  - vm_compute. reflexivity.
Qed.

(** ** reject *)

(** C1 (what the code does).  Handling a reject message that decodes to [m]
    tears the connection down and then calls the on-disconnect field once,
    with the reason of the message or REJECTED.  By then [Disconnect] has
    replaced the field by the no-op stub: the function that runs is the
    stub, whatever handler the consumer had registered. *)
Theorem reject_invokes_noop_stub (env : Env) (w : World) (raw : Frame)
    (m : rejectMessage) :
  decodeType raw = TypeTag "reject" ->
  unmarshalReject raw = Some m ->
  handleMessage env raw w =
    (Returned None,
     with_conn (disconnected (conn w)) w,
     teardown (conn w) ++
     [EvCall (CallOnDisconnect NoOp
                (if String.eqb (Reason m) "" then "REJECTED" else Reason m)
                None)]).
Proof.
  intros Ht Hm. unfold handleMessage. rewrite Ht. cbn [String.eqb Ascii.eqb Bool.eqb].
  rewrite Hm. unfold bind. rewrite Disconnect_closed_form.
  destruct w as [c k n a]. reflexivity.
Qed.

Lemma reject_invokes_noop_stub_witness :
  let w := Scenario.registered Scenario.okEnv "VP8" in
  onDisconnectHandler (conn w) = Consumer 7 /\
  ws (conn w) = Some 0 /\
  events (handleMessage Scenario.okEnv Scenario.reject w) =
    [EvWsClose 0; EvCall (CallOnDisconnect NoOp "full" None)] /\
  consumer_called (events (handleMessage Scenario.okEnv Scenario.reject w)) = false.
Proof.
  cbv zeta.
  rewrite (reject_invokes_noop_stub Scenario.okEnv
             (Scenario.registered Scenario.okEnv "VP8") Scenario.reject
             (mkReject "full") eq_refl eq_refl).
  repeat split; reflexivity.
Defined.

(** ** Connect *)

Lemma Connect_refused (env : Env) (w : World) :
  ws (conn w) <> None \/ pc (conn w) <> None ->
  Connect env w = (Some errConnectionAlreadyExists, w, []).
Proof.
  intros H. unfold Connect, bind, getc, ret.
  destruct (ws (conn w)) eqn:Ews; [reflexivity|].
  destruct (pc (conn w)) eqn:Epc; [reflexivity|].
  destruct H as [H|H]; now elim H.
Qed.

Lemma signaling_dial_ok (env : Env) (w : World) :
  ws (conn w) = None ->
  ok (oracle env (clock w)) = true ->
  signaling env w =
    (if ok (oracle env (S (clock w))) then None else Some errTransport,
     mkWorld (set_ws (Some (next_id w)) (conn w)) (S (S (clock w)))
       (S (next_id w)) (abandoned w),
     [EvDial (SignalingURL (conn w)) (Some (next_id w)); EvGo TaskRecv; EvGo TaskMain;
      EvWrite (next_id w) (OutRegister (register_of env (conn w)))
        (ok (oracle env (S (clock w))))]).
Proof.
  intros Hws Hok. destruct w as [c k n a]; simpl in *.
  unfold signaling, openWS, Dial, sendRegisterMessage, sendMsg, Write, bind, getc,
    ask, fresh, emit, modc, ret; cbn.
  rewrite Hws; cbn. rewrite Hok; cbn.
  destruct (ok (oracle env (S k))); reflexivity.
Qed.

Lemma signaling_dial_fails (env : Env) (w : World) :
  ws (conn w) = None ->
  ok (oracle env (clock w)) = false ->
  signaling env w =
    (Some (errWsOpen errTransport),
     mkWorld (conn w) (S (clock w)) (next_id w) (abandoned w),
     [EvDial (SignalingURL (conn w)) None]).
Proof.
  intros Hws Hok. destruct w as [c k n a]; simpl in *.
  unfold signaling, openWS, Dial, bind, getc, ask, emit, ret; cbn.
  rewrite Hws; cbn. rewrite Hok; reflexivity.
Qed.

Lemma Connect_runs_signaling (env : Env) (w : World) :
  ws (conn w) = None -> pc (conn w) = None ->
  Connect env w =
    (None, world_of (signaling env w), events (signaling env w)).
Proof.
  intros Hws Hpc. unfold Connect, bind, getc, ret, world_of, events.
  rewrite Hws, Hpc.
  destruct (signaling env w) as [[e w1] ev]; simpl.
  now rewrite app_nil_r.
Qed.

(** C7 (as amended).  When a transport or a session already exists,
    [Connect] returns an error at once, with no teardown and no change of
    state.  Otherwise it dials the signaling URL and, if the dial succeeds,
    keeps the transport, starts the two tasks and writes the register
    message, in this order. *)
Theorem Connect_guard_then_open (env : Env) (w : World) :
  (ws (conn w) <> None \/ pc (conn w) <> None ->
   Connect env w = (Some errConnectionAlreadyExists, w, [])) /\
  (ws (conn w) = None -> pc (conn w) = None ->
   ok (oracle env (clock w)) = true ->
   ws (conn (world_of (Connect env w))) = Some (next_id w) /\
   events (Connect env w) =
     [EvDial (SignalingURL (conn w)) (Some (next_id w)); EvGo TaskRecv; EvGo TaskMain;
      EvWrite (next_id w) (OutRegister (register_of env (conn w)))
        (ok (oracle env (S (clock w))))]).
Proof.
  split.
  - apply Connect_refused.
  - intros Hws Hpc Hok.
    rewrite (Connect_runs_signaling env w Hws Hpc).
    rewrite (signaling_dial_ok env w Hws Hok).
    split; reflexivity.
Qed.

Lemma Connect_guard_then_open_witness :
  Connect Scenario.okEnv (Scenario.accepted Scenario.okEnv false) =
    (Some errConnectionAlreadyExists, Scenario.accepted Scenario.okEnv false, []) /\
  writes (events (Connect Scenario.okEnv (Scenario.start "VP8"))) =
    [OutRegister (register_of Scenario.okEnv (conn (Scenario.start "VP8")))].
Proof.
  split.
  - apply (proj1 (Connect_guard_then_open Scenario.okEnv
                    (Scenario.accepted Scenario.okEnv false))).
    left. vm_compute. discriminate.
  - destruct (proj2 (Connect_guard_then_open Scenario.okEnv (Scenario.start "VP8"))
                eq_refl eq_refl eq_refl) as [_ Hev].
    rewrite Hev. reflexivity.
Defined.

(** C7 (counterexample).  No transport and no session exist, the dial
    fails: [Connect] starts no task and writes no register message. *)
Lemma Connect_dial_failure_starts_nothing :
  let r := Connect (Scenario.failAt 0) (Scenario.start "VP8") in
  ws (conn (Scenario.start "VP8")) = None /\
  pc (conn (Scenario.start "VP8")) = None /\
  events r = [EvDial "wss://relay.example/signaling" None] /\
  ~ In (EvGo TaskMain) (events r) /\
  writes (events r) = [].
Proof.
  cbv zeta. repeat split; try reflexivity.
  vm_compute. intros [H|[]]. discriminate H.
Qed.

(** C9.  When no transport and no session exist, [Connect] returns nil,
    also when the dial fails and when the write of the register message
    fails: in both cases [signaling] returns an error, which [Connect]
    drops. *)
Theorem Connect_discards_signaling_error (env : Env) (w : World) :
  ws (conn w) = None -> pc (conn w) = None ->
  result (Connect env w) = None /\
  (ok (oracle env (clock w)) = false ->
   result (signaling env w) = Some (errWsOpen errTransport)) /\
  (ok (oracle env (clock w)) = true -> ok (oracle env (S (clock w))) = false ->
   result (signaling env w) = Some errTransport).
Proof.
  intros Hws Hpc. split; [|split].
  - now rewrite (Connect_runs_signaling env w Hws Hpc).
  - intros Hok. now rewrite (signaling_dial_fails env w Hws Hok).
  - intros Hok Hw. rewrite (signaling_dial_ok env w Hws Hok), Hw. reflexivity.
Qed.

Lemma Connect_discards_signaling_error_witness :
  result (Connect (Scenario.failAt 0) (Scenario.start "VP8")) = None /\
  result (signaling (Scenario.failAt 0) (Scenario.start "VP8")) =
    Some (errWsOpen errTransport) /\
  result (Connect (Scenario.failAt 1) (Scenario.start "VP8")) = None /\
  result (signaling (Scenario.failAt 1) (Scenario.start "VP8")) = Some errTransport.
Proof.
  destruct (Connect_discards_signaling_error (Scenario.failAt 0) (Scenario.start "VP8")
              eq_refl eq_refl) as [H0 [H0' _]].
  destruct (Connect_discards_signaling_error (Scenario.failAt 1) (Scenario.start "VP8")
              eq_refl eq_refl) as [H1 [_ H1']].
  split; [exact H0|].
  split; [exact (H0' eq_refl)|].
  split; [exact H1|].
  exact (H1' eq_refl eq_refl).
Defined.

(** ** Messages that arrive while no session exists *)





(** ** The video codec *)

(** C5 (as amended).  [createPeerConnection] fails with an error whenever
    the requested video codec is anything but VP8; it does so before any
    call to the session engine and leaves the connection untouched.  The
    check belongs to session creation: [Connect] never reports it. *)
Theorem unsupported_codec_fails_session_creation (env : Env) (w : World) :
  video_Codec (Video (Options (conn w))) <> "VP8" ->
  createPeerConnection env w =
    (Some (errUnsupportedVideoCodec (video_Codec (Video (Options (conn w))))), w, []) /\
  (forall codec, result (Connect env w) <> Some (errUnsupportedVideoCodec codec)).
Proof.
  intros Hc. split.
  - unfold createPeerConnection, bind, getc, ret.
    apply String.eqb_neq in Hc. rewrite Hc. reflexivity.
  - intros codec. unfold Connect, bind, getc, ret, result.
    destruct (ws (conn w)); [cbn; discriminate|].
    destruct (pc (conn w)); [cbn; discriminate|].
    destruct (signaling env w) as [[e w1] ev]. cbn. discriminate.
Qed.

Lemma unsupported_codec_fails_session_creation_witness :
  createPeerConnection Scenario.okEnv (Scenario.start "H264") =
    (Some (errUnsupportedVideoCodec "H264"), Scenario.start "H264", []).
Proof.
  apply (unsupported_codec_fails_session_creation Scenario.okEnv (Scenario.start "H264")).
  cbn. discriminate.
Defined.

(** C5 (counterexample).  With the codec H264 [Connect] succeeds, dials and
    writes the register message; the accept that follows is handled with a
    nil error although no session could be created.  The codec error is
    raised after network activity and is not passed on. *)
Lemma unsupported_codec_surfaces_after_network_activity :
  let r := Connect Scenario.okEnv (Scenario.start "H264") in
  let r' := handleMessage Scenario.okEnv (Scenario.accept true) (world_of r) in
  result r = None /\
  existsb is_network (events r) = true /\
  result r' = Returned None /\
  pc (conn (world_of r')) = None.
Proof.
  cbv zeta. repeat apply conj; vm_compute; reflexivity.
Qed.

(** ** Protocol errors in the dispatch loop *)





(** ** Traces that avoid a class of events *)

Section Avoid.

Variable bad : event -> bool.

Lemma avoids_ret {A : Type} (a : A) : avoids bad (ret a).
Proof. intros w. reflexivity. Qed.

Lemma avoids_getc : avoids bad getc.
Proof. intros w. reflexivity. Qed.

Lemma avoids_modc (f : Connection -> Connection) : avoids bad (modc f).
Proof. intros w. reflexivity. Qed.

Lemma avoids_fresh : avoids bad fresh.
Proof. intros w. reflexivity. Qed.

Lemma avoids_abandon (p : PeerConnection) : avoids bad (abandon p).
Proof. intros w. reflexivity. Qed.

Lemma avoids_ask (env : Env) : avoids bad (ask env).
Proof. intros w. reflexivity. Qed.

Lemma avoids_emit (e : event) : bad e = false -> avoids bad (emit e).
Proof. intros H w. cbn. now rewrite H. Qed.

Lemma avoids_bind {A B : Type} (m : M A) (k : A -> M B) :
  avoids bad m -> (forall a, avoids bad (k a)) -> avoids bad (bind m k).
Proof.
  intros Hm Hk w. unfold bind, events.
  pose proof (Hm w) as H1. unfold events in H1.
  destruct (m w) as [[a w1] e1]. cbn in H1.
  pose proof (Hk a w1) as H2. unfold events in H2.
  destruct (k a w1) as [[b w2] e2]. cbn in H2 |- *.
  rewrite existsb_app, H1, H2. reflexivity.
Qed.

End Avoid.

(* Breaks a goal [avoids bad m] down along the structure of [m]. *)
Ltac avoid_step :=
  first
    [ apply avoids_ret
    | apply avoids_getc
    | apply avoids_modc
    | apply avoids_fresh
    | apply avoids_abandon
    | apply avoids_ask
    | apply avoids_emit; reflexivity
    | apply avoids_bind; [| intros ?]
    | match goal with
      | |- avoids _ (match ?x with _ => _ end) => destruct x
      end
    | progress cbv zeta ].

Ltac avoid := repeat avoid_step.

Lemma no_sdp_write (l : list event) :
  existsb is_sdp_write l = false -> sdp_writes l = [].
Proof.
  induction l as [|e l IH]; cbn; [reflexivity|].
  unfold is_sdp_write at 1. destruct (sdp_written e); cbn; [discriminate|exact IH].
Qed.


Lemma createPeerConnection_avoids_sdp (env : Env) :
  avoids is_sdp_write (createPeerConnection env).
Proof.
  unfold createPeerConnection, NewPeerConnection, AddTransceiver, invoke. avoid.
Qed.




(** ** Closed forms of session creation and of the offer and answer paths *)

Lemma accepted_conn_Options (m : acceptMessage) (c : Connection) :
  Options (accepted_conn m c) = Options c.
Proof. unfold accepted_conn. destruct (IceServers m) as [[|s l]|]; reflexivity. Qed.

Lemma accepted_conn_ws (m : acceptMessage) (c : Connection) :
  ws (accepted_conn m c) = ws c.
Proof. unfold accepted_conn. destruct (IceServers m) as [[|s l]|]; reflexivity. Qed.

Lemma accepted_conn_pcConfig (m : acceptMessage) (c : Connection) :
  pcConfig (accepted_conn m c) = servers_after_accept m c.
Proof.
  unfold accepted_conn, servers_after_accept.
  destruct (IceServers m) as [[|s l]|]; reflexivity.
Qed.

Lemma createPeerConnection_keeps_flag (env : Env) (w : World) :
  isExistClient (conn (world_of (createPeerConnection env w))) = isExistClient (conn w).
Proof.
  destruct w as [c k n a].
  unfold createPeerConnection, NewPeerConnection, AddTransceiver, invoke, bind, getc, modc,
    ask, fresh, emit, abandon, ret, world_of.
  cbn.
  repeat (break_inner; cbn); reflexivity.
Qed.

Lemma createPeerConnection_keeps_pcConfig (env : Env) (w : World) :
  pcConfig (conn (world_of (createPeerConnection env w))) = pcConfig (conn w).
Proof.
  destruct w as [c k n a].
  unfold createPeerConnection, NewPeerConnection, AddTransceiver, invoke, bind, getc, modc,
    ask, fresh, emit, abandon, ret, world_of.
  cbn.
  repeat (break_inner; cbn); reflexivity.
Qed.

Lemma sendOffer_keeps_pcConfig (env : Env) (w : World) :
  pcConfig (conn (world_of (sendOffer env w))) = pcConfig (conn w).
Proof.
  destruct w as [c k n a].
  unfold sendOffer, CreateOffer, SetLocalDescription, sendSdp, sendMsg, Write, bind, getc,
    modc, ask, emit, ret, world_of.
  cbn.
  repeat (break_inner; cbn); reflexivity.
Qed.

Lemma createPeerConnection_first_event (env : Env) (w : World) :
  video_Codec (Video (Options (conn w))) = "VP8" ->
  exists id rest,
    events (createPeerConnection env w) =
      EvNewPeerConnection (pcConfig (conn w)) id :: rest.
Proof.
  intros Hc. destruct w as [c k n a]. cbn [conn] in Hc.
  unfold createPeerConnection, NewPeerConnection, AddTransceiver, invoke, bind, getc, modc,
    ask, fresh, emit, abandon, ret, events.
  cbn. rewrite Hc. cbn.
  repeat (break_inner; cbn); eexists; eexists; reflexivity.
Qed.

Lemma createPeerConnection_ok (env : Env) (w : World) :
  video_Codec (Video (Options (conn w))) = "VP8" ->
  engine_ok env ->
  exists k',
    createPeerConnection env w =
      (None,
       mkWorld (set_pc (Some (fresh_session (conn w) (next_id w))) (conn w)) k'
         (S (next_id w))
         (match pc (conn w) with
          | Some old => old :: abandoned w
          | None => abandoned w
          end),
       EvNewPeerConnection (pcConfig (conn w)) (Some (next_id w)) ::
       transceiver_events (conn w) (next_id w) ++
       match pc (conn w) with
       | Some _ => [EvCall (CallOnOpen (onOpenHandler (conn w)) (authzMetadata (conn w)))]
       | None => []
       end).
Proof.
  intros Hc Hok. destruct w as [c k n a]. cbn [conn clock next_id abandoned] in *.
  unfold createPeerConnection, NewPeerConnection, AddTransceiver, invoke, bind, getc, modc,
    ask, fresh, emit, abandon, ret, transceiver_events, fresh_session.
  cbn. rewrite Hc. cbn.
  destruct (audio_Enabled (Audio (Options c))), (video_Enabled (Video (Options c)));
    destruct (pc c) eqn:Epc; repeat (progress (cbn; rewrite ?Hok, ?Epc));
    eexists; reflexivity.
Qed.

Lemma sendOffer_ok (env : Env) (w : World) (p : PeerConnection) (h : nat) :
  pc (conn w) = Some p -> pc_signaling p = SignalingStateStable ->
  ws (conn w) = Some h ->
  engine_ok env ->
  let offer := mkSD SDPTypeOffer (text (oracle env (clock w))) in
  sendOffer env w =
    (None,
     mkWorld (set_isOffer true
                (set_pc (Some (pc_with_local (Some offer)
                                 (pc_with_signaling SignalingStateHaveLocalOffer p)))
                   (conn w)))
       (S (S (S (clock w)))) (next_id w) (abandoned w),
     [EvCreateOffer (pc_id p) true; EvSetLocalDescription (pc_id p) offer true;
      EvWrite h (OutSdp offer) true]).
Proof.
  intros Hp Hs Hw Hok. destruct w as [c k n a]. cbn [conn clock next_id abandoned] in *.
  unfold sendOffer, CreateOffer, SetLocalDescription, sendSdp, sendMsg, Write, bind, getc,
    modc, ask, emit, ret, is_closed.
  cbn. rewrite Hp. repeat (progress (cbn; rewrite ?Hok, ?Hs, ?Hw)). reflexivity.
Qed.

Lemma setOffer_ok (env : Env) (w : World) (p : PeerConnection) (h : nat)
    (d : SessionDescription) :
  pc (conn w) = Some p -> pc_signaling p = SignalingStateStable ->
  sd_type d = SDPTypeOffer ->
  ws (conn w) = Some h ->
  engine_ok env ->
  let answer := mkSD SDPTypeAnswer (text (oracle env (S (clock w)))) in
  setOffer env d w =
    (None,
     mkWorld (set_pc (Some (pc_with_local (Some answer)
                              (pc_with_signaling SignalingStateStable
                                 (pc_with_remote (Some d)
                                    (pc_with_signaling SignalingStateHaveRemoteOffer p)))))
                (conn w))
       (S (S (S (S (clock w))))) (next_id w) (abandoned w),
     [EvSetRemoteDescription (pc_id p) d true; EvCreateAnswer (pc_id p) true;
      EvSetLocalDescription (pc_id p) answer true; EvWrite h (OutSdp answer) true]).
Proof.
  intros Hp Hs Hd Hw Hok. destruct w as [c k n a]. cbn [conn clock next_id abandoned] in *.
  unfold setOffer, createAnswer, SetRemoteDescription, CreateAnswer, SetLocalDescription,
    sendSdp, sendMsg, Write, bind, getc, modc, ask, emit, ret, is_closed, has_remote.
  cbn. rewrite Hp. repeat (progress (cbn; rewrite ?Hok, ?Hs, ?Hd, ?Hw)). reflexivity.
Qed.

Lemma unmarshalSessionDescription_type (t : SDPType) (raw : Frame)
    (d : SessionDescription) :
  unmarshalSessionDescription t raw = Some d -> sd_type d = t.
Proof.
  unfold unmarshalSessionDescription.
  destruct (frame_json raw) as [[| | | | |o]|]; try discriminate.
  destruct (field_string "sdp" o); [|discriminate].
  intros H. injection H as <-. reflexivity.
Qed.

(* The accept branch: the assignments, then the session, then the offer. *)
Lemma handleMessage_accept (env : Env) (w : World) (raw : Frame) (m : acceptMessage) :
  decodeType raw = TypeTag "accept" ->
  unmarshalAccept raw = Some m ->
  handleMessage env raw w =
    let r := createPeerConnection env (with_conn (accepted_conn m (conn w)) w) in
    if IsExistClient m
    then let r' := sendOffer env (world_of r) in
         (Returned (result r'), world_of r', events r ++ events r')
    else (Returned None, world_of r, events r).
Proof.
  intros Ht Hm. unfold handleMessage. rewrite Ht.
  cbn [String.eqb Ascii.eqb Bool.eqb]. rewrite Hm.
  cbv zeta.
  pose proof (createPeerConnection_keeps_flag env
                (with_conn (accepted_conn m (conn w)) w)) as Hf.
  destruct w as [c k n a].
  unfold bind at 1 2 3 4 5. unfold modc at 1 2. cbn [conn clock next_id abandoned].
  unfold with_conn, accepted_conn in *. cbn [conn clock next_id abandoned] in *.
  destruct (IceServers m) as [[|s l]|]; unfold modc, ret;
    cbn [conn clock next_id abandoned] in *.
  all: destruct (createPeerConnection env _) as [[e w1] ev1];
    unfold world_of, result, events in *; cbn [fst snd] in *;
    unfold bind, getc; cbn [fst snd]; rewrite Hf; cbn [isExistClient set_isExistClient];
    destruct (IsExistClient m).
  all: try (destruct (sendOffer env w1) as [[e2 w2] ev2]; unfold ret; cbn;
            rewrite ?app_nil_r; reflexivity).
  all: unfold ret; cbn; rewrite ?app_nil_r; reflexivity.
Qed.

(* The offer branch: on glare a new session first, then the remote offer. *)
Lemma handleMessage_offer (env : Env) (w : World) (raw : Frame) (d : SessionDescription) :
  decodeType raw = TypeTag "offer" ->
  unmarshalSessionDescription SDPTypeOffer raw = Some d ->
  handleMessage env raw w =
    let glare := match pc (conn w) with
                 | Some p => is_have_local_offer p
                 | None => false
                 end in
    if glare
    then let r := createPeerConnection env w in
         let r' := setOffer env d (world_of r) in
         (Returned (result r'), world_of r', events r ++ events r')
    else let r' := setOffer env d w in
         (Returned (result r'), world_of r', events r').
Proof.
  intros Ht Hm. unfold handleMessage. rewrite Ht.
  cbn [String.eqb Ascii.eqb Bool.eqb]. rewrite Hm. cbv zeta.
  unfold bind, getc, ret, world_of, result, events.
  destruct (pc (conn w)) as [p|]; [destruct (is_have_local_offer p)|].
  - destruct (createPeerConnection env w) as [[e w1] ev1]. cbn [fst snd].
    destruct (setOffer env d w1) as [[e2 w2] ev2]. cbn [fst snd].
    now rewrite !app_nil_r.
  - destruct (setOffer env d w) as [[e2 w2] ev2]. cbn. now rewrite ?app_nil_r.
  - destruct (setOffer env d w) as [[e2 w2] ev2]. cbn. now rewrite ?app_nil_r.
Qed.

(** ** Frames that write no session description *)



(** ** accept *)




(** ** offer during a pending local offer *)




(** ** The relay-candidate servers *)

(* What the accept branch does with the servers, for every accept. *)
Lemma accept_relay_servers (env : Env) (w : World) (raw : Frame) (m : acceptMessage) :
  decodeType raw = TypeTag "accept" ->
  unmarshalAccept raw = Some m ->
  pcConfig (conn (world_of (handleMessage env raw w))) = servers_after_accept m (conn w) /\
  (video_Codec (Video (Options (conn w))) = "VP8" ->
   exists id rest,
     events (handleMessage env raw w) =
       EvNewPeerConnection (servers_after_accept m (conn w)) id :: rest).
Proof.
  intros Ht Hm. rewrite (handleMessage_accept env w raw m Ht Hm). cbv zeta.
  pose proof (createPeerConnection_keeps_pcConfig env
                (with_conn (accepted_conn m (conn w)) w)) as Hk.
  cbn [conn with_conn] in Hk. rewrite accepted_conn_pcConfig in Hk.
  split.
  - destruct (IsExistClient m).
    + unfold world_of at 1. cbn [fst snd].
      fold (world_of (sendOffer env
              (world_of (createPeerConnection env
                           (with_conn (accepted_conn m (conn w)) w))))).
      rewrite sendOffer_keeps_pcConfig. exact Hk.
    + exact Hk.
  - intros Hc.
    destruct (createPeerConnection_first_event env
                (with_conn (accepted_conn m (conn w)) w)) as [id [rest E]].
    { cbn [conn with_conn]. now rewrite accepted_conn_Options. }
    cbn [conn with_conn] in E. rewrite accepted_conn_pcConfig in E.
    destruct (IsExistClient m).
    + unfold events at 1. cbn [snd]. rewrite E. eexists. eexists. reflexivity.
    + exists id, rest. exact E.
Qed.

(* On a connection that was just built, the first accept without servers
   does use the fallback servers of the options. *)
Lemma first_accept_uses_fallback (env : Env) (url room : string)
    (options : ConnectionOptions) (debug : bool) (raw : Frame) (m : acceptMessage) :
  decodeType raw = TypeTag "accept" ->
  unmarshalAccept raw = Some m ->
  IceServers m = None ->
  let w := world_of (Connect env (newWorld (NewConnection url room options debug))) in
  pcConfig (conn (world_of (handleMessage env raw w))) = ICEServers options.
Proof.
  intros Ht Hm Hs. cbv zeta.
  rewrite (proj1 (accept_relay_servers env _ raw m Ht Hm)).
  unfold servers_after_accept. rewrite Hs.
  set (w0 := newWorld (NewConnection url room options debug)).
  rewrite (Connect_runs_signaling env w0 eq_refl eq_refl).
  unfold world_of at 1. cbn [fst snd].
  destruct (ok (oracle env (clock w0))) eqn:Hok.
  - rewrite (signaling_dial_ok env w0 eq_refl Hok). reflexivity.
  - rewrite (signaling_dial_fails env w0 eq_refl Hok). reflexivity.
Qed.

(** C6 (failing input).  The options carry one fallback server.  A first
    session receives an accept with a relay server; the consumer
    disconnects and connects again on the same Connection; the second
    accept carries no [iceServers].  The new session is configured with the
    relay server of the first accept, not with the fallback server. *)
Theorem stale_relay_servers_after_reconnect :
  let w := Scenario.reconnected in
  let r := handleMessage Scenario.okEnv (Scenario.accept false) w in
  ICEServers (Options (conn w)) = [Scenario.fallback] /\
  unmarshalAccept (Scenario.accept false) = Some (mkAccept "c1" None None false) /\
  pc (conn w) = None /\
  events r = [EvNewPeerConnection [Scenario.relayed] (Some 3);
              EvAddTransceiver 3 RTPCodecTypeAudio true;
              EvAddTransceiver 3 RTPCodecTypeVideo true] /\
  pcConfig (conn (world_of r)) = [Scenario.relayed].
Proof.
  cbv zeta. repeat apply conj; vm_compute; reflexivity.
Qed.

(** ** Field preservation *)

Section Keep.

Context {X : Type}.
Variable f : Connection -> X.

Lemma keeps_ret {A : Type} (a : A) : keeps f (ret a).
Proof. intros w. reflexivity. Qed.

Lemma keeps_getc : keeps f getc.
Proof. intros w. reflexivity. Qed.

Lemma keeps_emit (e : event) : keeps f (emit e).
Proof. intros w. reflexivity. Qed.

Lemma keeps_fresh : keeps f fresh.
Proof. intros w. reflexivity. Qed.

Lemma keeps_abandon (p : PeerConnection) : keeps f (abandon p).
Proof. intros w. reflexivity. Qed.

Lemma keeps_ask (env : Env) : keeps f (ask env).
Proof. intros w. reflexivity. Qed.

Lemma keeps_modc (g : Connection -> Connection) :
  (forall c, f (g c) = f c) -> keeps f (modc g).
Proof. intros H w. apply H. Qed.

Lemma keeps_bind {A B : Type} (m : M A) (k : A -> M B) :
  keeps f m -> (forall a, keeps f (k a)) -> keeps f (bind m k).
Proof.
  intros Hm Hk w. unfold bind, world_of.
  pose proof (Hm w) as H1. unfold world_of in H1.
  destruct (m w) as [[a w1] e1]. cbn in H1.
  pose proof (Hk a w1) as H2. unfold world_of in H2.
  destruct (k a w1) as [[b w2] e2]. cbn in H2 |- *.
  now rewrite H2.
Qed.

End Keep.

Create HintDb keepdb.

Ltac keep_step :=
  lazymatch goal with
  | |- keeps _ (ret _) => apply keeps_ret
  | |- keeps _ getc => apply keeps_getc
  | |- keeps _ (emit _) => apply keeps_emit
  | |- keeps _ fresh => apply keeps_fresh
  | |- keeps _ (abandon _) => apply keeps_abandon
  | |- keeps _ (ask _) => apply keeps_ask
  | |- keeps _ (modc _) =>
      apply keeps_modc; intros ?; first [reflexivity | solve [auto 1 with keepdb nocore]]
  | |- keeps _ (bind _ _) => apply keeps_bind; [| intros ?]
  | |- keeps _ (match ?x with _ => _ end) => destruct x
  | |- keeps _ (let _ := _ in _) => cbv zeta
  | |- keeps _ _ => solve [auto 1 with keepdb nocore]
  end.

Ltac keep := repeat keep_step.

(* Functions that touch only the session handle. *)
Section KeepSession.

Context {X : Type}.
Variable f : Connection -> X.
Hypothesis f_pc : forall v c, f (set_pc v c) = f c.
Variable env : Env.

#[local] Hint Resolve f_pc : keepdb.

Lemma createPeerConnection_keeps : keeps f (createPeerConnection env).
Proof. unfold createPeerConnection, NewPeerConnection, AddTransceiver, invoke. keep. Qed.

Lemma sendMsg_keeps (v : outMsg) : keeps f (sendMsg env v).
Proof. unfold sendMsg, Write. keep. Qed.

#[local] Hint Extern 1 (keeps _ (sendMsg _ _)) => apply sendMsg_keeps : keepdb.

Lemma setAnswer_keeps (d : SessionDescription) : keeps f (setAnswer env d).
Proof. unfold setAnswer, SetRemoteDescription. keep. Qed.

Lemma addICECandidate_keeps (cand : ICECandidateInit) : keeps f (addICECandidate env cand).
Proof. unfold addICECandidate, AddICECandidate. keep. Qed.

(* [sendOffer] also sets the offerer flag. *)
Hypothesis f_isOffer : forall v c, f (set_isOffer v c) = f c.

#[local] Hint Resolve f_isOffer : keepdb.

Lemma sendOffer_keeps : keeps f (sendOffer env).
Proof. unfold sendOffer, CreateOffer, SetLocalDescription, sendSdp. keep. Qed.

End KeepSession.

Lemma config_set_pc (v : option PeerConnection) (c : Connection) :
  config (set_pc v c) = config c.
Proof. reflexivity. Qed.

Lemma config_set_isOffer (v : bool) (c : Connection) :
  config (set_isOffer v c) = config c.
Proof. reflexivity. Qed.

Lemma Disconnect_keeps_config : keeps config Disconnect.
Proof. unfold Disconnect, closePeerConnection, closeWebSocketConnection, Close. keep. Qed.

#[local] Hint Extern 1 (keeps config Disconnect) => apply Disconnect_keeps_config : keepdb.
#[local] Hint Extern 1 (keeps config (createPeerConnection _)) =>
  apply createPeerConnection_keeps; intros; reflexivity : keepdb.
#[local] Hint Extern 1 (keeps config (sendMsg _ _)) =>
  apply sendMsg_keeps : keepdb.
#[local] Hint Extern 1 (keeps config (sendOffer _)) =>
  apply sendOffer_keeps; intros; reflexivity : keepdb.
#[local] Hint Extern 1 (keeps config (setAnswer _ _)) =>
  apply setAnswer_keeps; intros; reflexivity : keepdb.
#[local] Hint Extern 1 (keeps config (addICECandidate _ _)) =>
  apply addICECandidate_keeps; intros; reflexivity : keepdb.

Lemma createAnswer_keeps_config (env : Env) : keeps config (createAnswer env).
Proof. unfold createAnswer, CreateAnswer, SetLocalDescription, sendSdp, invoke. keep. Qed.

#[local] Hint Extern 1 (keeps config (createAnswer _)) => apply createAnswer_keeps_config : keepdb.

Lemma setOffer_keeps_config (env : Env) (d : SessionDescription) :
  keeps config (setOffer env d).
Proof. unfold setOffer, SetRemoteDescription, invoke. keep. Qed.

#[local] Hint Extern 1 (keeps config (setOffer _ _)) => apply setOffer_keeps_config : keepdb.

Lemma handleMessage_keeps_config (env : Env) (raw : Frame) :
  keeps config (handleMessage env raw).
Proof. unfold handleMessage, sendPongMessage, invoke. keep. Qed.

Lemma dispatch_keeps_config (env : Env) (q : list Frame) :
  keeps config (dispatch env q).
Proof.
  induction q as [|raw q IH]; cbn [dispatch]; [keep|].
  apply keeps_bind; [apply handleMessage_keeps_config|].
  intros [[e|]|]; [keep | exact IH | keep].
Qed.

(** X20.  Signaling URL, room id, options, debug flag and authentication
    metadata are never modified by the dispatch loop, [Connect],
    [Disconnect], the ICE state handler, the end of the read task or the
    close ticker. *)
Theorem configuration_is_never_changed (env : Env) :
  (forall q, keeps config (main env q)) /\
  keeps config (Connect env) /\
  keeps config Disconnect /\
  (forall s, keeps config (onICEConnectionStateChange s)) /\
  keeps config recvExit /\
  keeps config closePollTick.
Proof.
  repeat apply conj.
  - intros q. unfold main. apply keeps_bind; [apply dispatch_keeps_config|]. intros x. keep.
  - unfold Connect, signaling, openWS, Dial, sendRegisterMessage. keep.
  - apply Disconnect_keeps_config.
  - intros s. unfold onICEConnectionStateChange, invoke. keep.
  - unfold recvExit, invoke. keep.
  - unfold closePollTick. keep.
Qed.

(** ** ping *)

Lemma sendMsg_without_transport (env : Env) (w : World) (v : outMsg) :
  ws (conn w) = None -> sendMsg env v w = (None, w, []).
Proof. intros H. unfold sendMsg, bind, getc, ret. rewrite H. reflexivity. Qed.




(** X2.  After [Disconnect] every send is a no-op that returns nil: nothing
    is written and the library is not called.  A ping that is still in the
    queue is handled without a pong. *)
Theorem sends_after_Disconnect_are_silent (env : Env) (w : World) (raw : Frame) :
  is_ping raw = true ->
  let w1 := world_of (Disconnect w) in
  (forall v, sendMsg env v w1 = (None, w1, [])) /\
  sendPongMessage env w1 = (None, w1, []) /\
  sendRegisterMessage env w1 = (None, w1, []) /\
  (forall d, sendSdp env d w1 = (tt, w1, [])) /\
  handleMessage env raw w1 = (Returned None, w1, []).
Proof.
  intros Hp. cbv zeta. rewrite Disconnect_closed_form. unfold world_of. cbn [fst snd].
  set (w1 := with_conn (disconnected (conn w)) w).
  assert (Hs : forall v, sendMsg env v w1 = (None, w1, [])).
  { intros v. now apply sendMsg_without_transport. }
  repeat apply conj.
  - exact Hs.
  - unfold sendPongMessage, bind. rewrite Hs. reflexivity.
  - unfold sendRegisterMessage, bind, getc. rewrite Hs. reflexivity.
  - intros d. unfold sendSdp, bind. rewrite Hs. reflexivity.
  - unfold is_ping in Hp. unfold handleMessage.
    destruct (decodeType raw) as [| |t]; try discriminate Hp. rewrite Hp.
    unfold sendPongMessage, bind. rewrite Hs. reflexivity.
Qed.

Lemma sends_after_Disconnect_are_silent_witness :
  let w1 := world_of (Disconnect (Scenario.accepted Scenario.okEnv true)) in
  handleMessage Scenario.okEnv Scenario.ping w1 = (Returned None, w1, []).
Proof.
  cbv zeta.
  exact (proj2 (proj2 (proj2 (proj2
           (sends_after_Disconnect_are_silent Scenario.okEnv
              (Scenario.accepted Scenario.okEnv true) Scenario.ping eq_refl))))).
Defined.

(** ** bye *)

(** X3.  A bye frame calls the on-bye handler that is registered at that
    moment, once, and only then tears the connection down. *)
Theorem bye_notifies_then_tears_down (env : Env) (w : World) (raw : Frame) :
  decodeType raw = TypeTag "bye" ->
  handleMessage env raw w =
    (Returned None,
     with_conn (disconnected (conn w)) w,
     EvCall (CallOnBye (onByeHandler (conn w))) :: teardown (conn w)).
Proof.
  intros Ht. unfold handleMessage. rewrite Ht. cbn [String.eqb Ascii.eqb Bool.eqb].
  unfold bind, getc, invoke, emit. rewrite Disconnect_closed_form.
  destruct w as [c k n a]. cbn. now rewrite app_nil_r.
Qed.

Lemma bye_notifies_then_tears_down_witness :
  let w := world_of (Scenario.next (OnBye (Consumer 3)) (Connect Scenario.okEnv)
                       (Scenario.start "VP8")) in
  events (handleMessage Scenario.okEnv Scenario.bye w) =
    [EvCall (CallOnBye (Consumer 3)); EvWsClose 0].
Proof.
  cbv zeta.
  rewrite (bye_notifies_then_tears_down Scenario.okEnv _ Scenario.bye eq_refl).
  reflexivity.
Defined.

(** ** Traces without reactions *)

Create HintDb shundb.

Ltac shun_step :=
  lazymatch goal with
  | |- avoids _ (ret _) => apply avoids_ret
  | |- avoids _ getc => apply avoids_getc
  | |- avoids _ (modc _) => apply avoids_modc
  | |- avoids _ fresh => apply avoids_fresh
  | |- avoids _ (abandon _) => apply avoids_abandon
  | |- avoids _ (ask _) => apply avoids_ask
  | |- avoids _ (emit _) => apply avoids_emit; reflexivity
  | |- avoids _ (bind _ _) =>
      first [ solve [auto 1 with shundb nocore] | apply avoids_bind; [| intros ?] ]
  | |- avoids _ (match ?x with _ => _ end) => destruct x
  | |- avoids _ (let _ := _ in _) => cbv zeta
  | |- avoids _ _ => solve [auto 1 with shundb nocore]
  end.

Ltac shun := repeat shun_step.

Lemma setAnswer_avoids_reaction (env : Env) (d : SessionDescription) :
  avoids is_reaction (setAnswer env d).
Proof. unfold setAnswer, SetRemoteDescription. shun. Qed.

Lemma addICECandidate_avoids_reaction (env : Env) (cand : ICECandidateInit) :
  avoids is_reaction (addICECandidate env cand).
Proof. unfold addICECandidate, AddICECandidate. shun. Qed.

(** ** Teardown and reconnection *)

(** X4.  [Disconnect] writes no frame and calls no callback, keeps the relay
    servers, closes an open session once and before the transport, and
    closes each of the two only if it is there. *)
Theorem Disconnect_closes_session_then_transport (w : World) :
  existsb is_write (events (Disconnect w)) = false /\
  existsb is_call (events (Disconnect w)) = false /\
  pcConfig (conn (world_of (Disconnect w))) = pcConfig (conn w) /\
  events (Disconnect w) =
    match pc (conn w) with
    | Some p => if is_closed p then [] else [EvGo TaskClosePoll; EvPcClose (pc_id p)]
    | None => []
    end ++
    match ws (conn w) with
    | Some h => [EvWsClose h]
    | None => []
    end.
Proof.
  rewrite Disconnect_closed_form. unfold events, world_of, teardown. cbn [fst snd].
  repeat apply conj; try reflexivity.
  - destruct (pc (conn w)) as [p|]; [destruct (is_closed p)|];
      destruct (ws (conn w)); reflexivity.
  - destruct (pc (conn w)) as [p|]; [destruct (is_closed p)|];
      destruct (ws (conn w)); reflexivity.
Qed.

(** X5.  If a session was open when [Disconnect] ran, a [Connect] issued
    right afterwards is refused and changes nothing: the closed session is
    still referenced. *)
Theorem Connect_refused_until_session_cleared (env : Env) (w : World)
    (p : PeerConnection) :
  pc (conn w) = Some p -> is_closed p = false ->
  Connect env (world_of (Disconnect w)) =
    (Some errConnectionAlreadyExists, world_of (Disconnect w), []).
Proof.
  intros Hp Hc. apply Connect_refused. right.
  rewrite Disconnect_closed_form. unfold world_of. cbn [fst snd conn with_conn].
  unfold disconnected, pc_after_close. cbn [pc]. rewrite Hp, Hc. discriminate.
Qed.

Lemma Connect_refused_until_session_cleared_witness :
  result (Connect Scenario.okEnv
            (world_of (Disconnect (Scenario.accepted Scenario.okEnv true)))) =
    Some errConnectionAlreadyExists.
Proof.
  pose (p := pc_with_local (Some (mkSD SDPTypeOffer "v=0"))
               (pc_with_signaling SignalingStateHaveLocalOffer
                  (fresh_session (conn (Scenario.start "VP8")) 1))).
  assert (Hp : pc (conn (Scenario.accepted Scenario.okEnv true)) = Some p)
    by (vm_compute; reflexivity).
  rewrite (Connect_refused_until_session_cleared Scenario.okEnv
             (Scenario.accepted Scenario.okEnv true) p Hp eq_refl).
  reflexivity.
Defined.

Lemma Disconnect_then_poll (w : World) :
  bind Disconnect (fun _ => closePollTick) w =
    (true, with_conn (set_pc None (disconnected (conn w))) w, teardown (conn w)).
Proof.
  unfold bind. rewrite Disconnect_closed_form.
  destruct w as [c k n a]. unfold with_conn. cbn [conn clock next_id abandoned].
  unfold closePollTick, bind, getc, modc, ret, disconnected, pc_after_close.
  cbn [conn pc clock next_id abandoned].
  destruct (pc c) as [p|]; [destruct (is_closed p)|]; cbn; now rewrite app_nil_r.
Qed.

(** X6.  After [Disconnect] and one round of the close ticker both handles
    are nil, the ticker stops, and [Connect] goes on to dial the signaling
    URL and returns nil. *)
Theorem Connect_after_close_poll (env : Env) (w : World) :
  let r := bind Disconnect (fun _ => closePollTick) w in
  result r = true /\
  ws (conn (world_of r)) = None /\ pc (conn (world_of r)) = None /\
  Connect env (world_of r) =
    (None, world_of (signaling env (world_of r)), events (signaling env (world_of r))) /\
  exists res rest,
    events (Connect env (world_of r)) = EvDial (SignalingURL (conn w)) res :: rest.
Proof.
  cbv zeta. rewrite Disconnect_then_poll.
  change (world_of (true, with_conn (set_pc None (disconnected (conn w))) w,
                    teardown (conn w)))
    with (with_conn (set_pc None (disconnected (conn w))) w).
  set (w1 := with_conn (set_pc None (disconnected (conn w))) w).
  assert (Hw : ws (conn w1) = None) by reflexivity.
  assert (Hp : pc (conn w1) = None) by reflexivity.
  assert (Hu : SignalingURL (conn w1) = SignalingURL (conn w)) by reflexivity.
  split; [reflexivity|]. split; [exact Hw|]. split; [exact Hp|].
  rewrite (Connect_runs_signaling env w1 Hw Hp). split; [reflexivity|].
  destruct (ok (oracle env (clock w1))) eqn:Hok.
  - rewrite (signaling_dial_ok env w1 Hw Hok). unfold events. cbn [snd].
    rewrite Hu. eexists. eexists. reflexivity.
  - rewrite (signaling_dial_fails env w1 Hw Hok). unfold events. cbn [snd].
    rewrite Hu. eexists. eexists. reflexivity.
Qed.

(** ** answer *)

Lemma handleMessage_answer (env : Env) (w : World) (raw : Frame) (d : SessionDescription) :
  decodeType raw = TypeTag "answer" ->
  unmarshalSessionDescription SDPTypeAnswer raw = Some d ->
  handleMessage env raw w =
    (Returned (result (setAnswer env d w)), world_of (setAnswer env d w),
     events (setAnswer env d w)).
Proof.
  intros Ht Hm. unfold handleMessage. rewrite Ht.
  cbn [String.eqb Ascii.eqb Bool.eqb]. rewrite Hm.
  unfold bind, ret, result, world_of, events.
  destruct (setAnswer env d w) as [[e w1] ev]. cbn. now rewrite app_nil_r.
Qed.

Lemma besides_session_set_pc (v : option PeerConnection) (c : Connection) :
  besides_session (set_pc v c) = besides_session c.
Proof. reflexivity. Qed.

Lemma same_session_same_connection (c c' : Connection) :
  besides_session c' = besides_session c -> pc c' = pc c -> c' = c.
Proof.
  destruct c, c'. unfold besides_session, set_pc. cbn. intros H E.
  injection H. intros. subst. reflexivity.
Qed.

(** X7.  Handling an answer closes nothing, calls no callback and writes no
    frame, whatever the engine replies; it changes at most the session, and
    nothing at all when there is no session. *)
Theorem answer_is_applied_quietly (env : Env) (w : World) (raw : Frame)
    (d : SessionDescription) :
  decodeType raw = TypeTag "answer" ->
  unmarshalSessionDescription SDPTypeAnswer raw = Some d ->
  let r := handleMessage env raw w in
  existsb is_reaction (events r) = false /\
  besides_session (conn (world_of r)) = besides_session (conn w) /\
  (pc (conn w) = None -> r = (Returned None, w, [])).
Proof.
  intros Ht Hm. cbv zeta. rewrite (handleMessage_answer env w raw d Ht Hm).
  repeat apply conj.
  - apply setAnswer_avoids_reaction.
  - apply (setAnswer_keeps besides_session besides_session_set_pc env d w).
  - intros Hp. unfold setAnswer, bind, getc, ret. rewrite Hp. reflexivity.
Qed.

Lemma answer_is_applied_quietly_witness :
  let w := Scenario.accepted Scenario.okEnv true in
  existsb is_reaction (events (handleMessage Scenario.okEnv Scenario.answer w)) = false.
Proof.
  cbv zeta.
  exact (proj1 (answer_is_applied_quietly Scenario.okEnv
                  (Scenario.accepted Scenario.okEnv true) Scenario.answer
                  (mkSD SDPTypeAnswer "remote-answer") eq_refl eq_refl)).
Defined.



(** ** candidate *)

Lemma handleMessage_candidate (env : Env) (w : World) (raw : Frame)
    (m : candidateMessage) :
  decodeType raw = TypeTag "candidate" ->
  unmarshalCandidate raw = Some m ->
  handleMessage env raw w =
    match ICECandidate m with
    | Some cand =>
        (Returned None, world_of (addICECandidate env cand w),
         events (addICECandidate env cand w))
    | None => (Returned None, w, [])
    end.
Proof.
  intros Ht Hm. unfold handleMessage. rewrite Ht.
  cbn [String.eqb Ascii.eqb Bool.eqb]. rewrite Hm.
  unfold bind, ret, world_of, events.
  destruct (ICECandidate m) as [cand|]; [|reflexivity].
  destruct (addICECandidate env cand w) as [[u w1] ev]. cbn. now rewrite app_nil_r.
Qed.

(** X9.  A candidate frame never ends the dispatch loop: the result is nil
    also when the engine refuses the candidate, in which case the
    connection is unchanged.  No close, callback or write is caused, and a
    message without candidate does nothing. *)
Theorem candidate_never_fails (env : Env) (w : World) (raw : Frame)
    (m : candidateMessage) :
  decodeType raw = TypeTag "candidate" ->
  unmarshalCandidate raw = Some m ->
  let r := handleMessage env raw w in
  result r = Returned None /\
  existsb is_reaction (events r) = false /\
  besides_session (conn (world_of r)) = besides_session (conn w) /\
  (ok (oracle env (clock w)) = false -> conn (world_of r) = conn w) /\
  (ICECandidate m = None -> r = (Returned None, w, [])).
Proof.
  intros Ht Hm. cbv zeta. rewrite (handleMessage_candidate env w raw m Ht Hm).
  destruct (ICECandidate m) as [cand|].
  - repeat apply conj.
    + reflexivity.
    + apply addICECandidate_avoids_reaction.
    + apply (addICECandidate_keeps besides_session besides_session_set_pc env cand w).
    + intros Hok. destruct w as [c k n a]. cbn [clock conn] in *.
      unfold addICECandidate, AddICECandidate, bind, getc, modc, ask, emit, ret, world_of.
      cbn. destruct (pc c) as [p|] eqn:Hp; cbn; [|reflexivity].
      rewrite Hok. cbn.
      apply same_session_same_connection; [reflexivity | now rewrite Hp].
    + discriminate.
  - repeat apply conj; reflexivity.
Qed.

Lemma candidate_never_fails_witness :
  let env := Scenario.failAt 8 in
  let r := handleMessage env Scenario.candidate (Scenario.accepted env true) in
  result r = Returned None /\ existsb is_reaction (events r) = false.
Proof.
  cbv zeta.
  destruct (candidate_never_fails (Scenario.failAt 8)
              (Scenario.accepted (Scenario.failAt 8) true) Scenario.candidate
              (mkCandidateMessage
                 (Some (mkCandidate "candidate:1 1 UDP 1 10.0.0.1 9 typ host"
                          (Some "0") (Some 0%Z))))
              eq_refl eq_refl) as [H1 [H2 _]].
  split; [exact H1 | exact H2].
Defined.

(** ** offer: the failure paths *)

Lemma disconnected_same_session (c c' : Connection) :
  besides_session c' = besides_session c -> pc_after_close c' = pc_after_close c ->
  disconnected c' = disconnected c.
Proof.
  destruct c, c'. unfold besides_session, set_pc, disconnected. cbn. intros H E.
  injection H. intros. subst. now rewrite E.
Qed.

(** X10.  When the engine refuses a remote offer, [setOffer] tears the
    connection down, calls the on-disconnect field (by then the stub) with
    CREATE-OFFER-ERROR and returns the error. *)
Theorem refused_offer_tears_down (env : Env) (w : World) (d : SessionDescription)
    (p : PeerConnection) :
  pc (conn w) = Some p ->
  ok (oracle env (clock w)) = false ->
  setOffer env d w =
    (Some errEngine,
     mkWorld (disconnected (conn w)) (S (clock w)) (next_id w) (abandoned w),
     EvSetRemoteDescription (pc_id p) d false :: teardown (conn w) ++
     [EvCall (CallOnDisconnect NoOp "CREATE-OFFER-ERROR" (Some errEngine))]).
Proof.
  intros Hp Hok. destruct w as [c k n a].
  destruct c as [u r o dbg am az cs cid ws0 pc0 cfg io ie h1 h2 h3 h4 h5].
  cbn in Hp, Hok. subst pc0.
  unfold setOffer, SetRemoteDescription, Disconnect, closePeerConnection,
    closeWebSocketConnection, Close, invoke, bind, getc, modc, ask, emit, ret,
    disconnected, pc_after_close, teardown.
  cbn. rewrite Hok.
  destruct (is_closed p) eqn:Ec, ws0;
    repeat (progress (cbn; rewrite ?Ec)); reflexivity.
Qed.

Lemma refused_offer_tears_down_witness :
  let env := Scenario.failAt 5 in
  let r := handleMessage env Scenario.offer (Scenario.accepted env false) in
  result r = Returned (Some errEngine) /\
  calls (events r) = [CallOnDisconnect NoOp "CREATE-OFFER-ERROR" (Some errEngine)] /\
  ws (conn (world_of r)) = None.
Proof.
  cbv zeta.
  rewrite (handleMessage_offer (Scenario.failAt 5) _ Scenario.offer
             (mkSD SDPTypeOffer "remote-offer") eq_refl eq_refl).
  assert (Hp : pc (conn (Scenario.accepted (Scenario.failAt 5) false)) =
               Some (fresh_session (conn (Scenario.start "VP8")) 1))
    by (vm_compute; reflexivity).
  assert (Hk : ok (oracle (Scenario.failAt 5)
                     (clock (Scenario.accepted (Scenario.failAt 5) false))) = false)
    by (vm_compute; reflexivity).
  cbv zeta. rewrite Hp. cbn [is_have_local_offer fresh_session pc_signaling].
  rewrite (refused_offer_tears_down (Scenario.failAt 5)
             (Scenario.accepted (Scenario.failAt 5) false)
             (mkSD SDPTypeOffer "remote-offer") _ Hp Hk).
  repeat split; vm_compute; reflexivity.
Defined.

(** X11.  When the remote offer is applied but the engine cannot create an
    answer, the connection is torn down, the on-disconnect field is called
    with CREATE-ANSWER-ERROR, the error is returned and no answer is
    written. *)
Theorem failed_answer_creation_tears_down (env : Env) (w : World)
    (d : SessionDescription) (p : PeerConnection) :
  pc (conn w) = Some p -> pc_signaling p = SignalingStateStable ->
  sd_type d = SDPTypeOffer ->
  ok (oracle env (clock w)) = true ->
  ok (oracle env (S (clock w))) = false ->
  let p' := pc_with_remote (Some d)
              (pc_with_signaling SignalingStateHaveRemoteOffer p) in
  setOffer env d w =
    (Some errEngine,
     mkWorld (disconnected (set_pc (Some p') (conn w))) (S (S (clock w)))
       (next_id w) (abandoned w),
     [EvSetRemoteDescription (pc_id p) d true; EvCreateAnswer (pc_id p) false;
      EvGo TaskClosePoll; EvPcClose (pc_id p)] ++
     match ws (conn w) with
     | Some h => [EvWsClose h]
     | None => []
     end ++
     [EvCall (CallOnDisconnect NoOp "CREATE-ANSWER-ERROR" (Some errEngine))]).
Proof.
  intros Hp Hs Hd Hok1 Hok2. cbv zeta.
  destruct w as [c k n a].
  destruct c as [u r o dbg am az cs cid ws0 pc0 cfg io ie h1 h2 h3 h4 h5].
  cbn in Hp, Hok1, Hok2. subst pc0.
  unfold setOffer, createAnswer, CreateAnswer, SetRemoteDescription, Disconnect,
    closePeerConnection, closeWebSocketConnection, Close, invoke, bind, getc, modc,
    ask, emit, ret, disconnected, pc_after_close, teardown, is_closed, has_remote.
  cbn. rewrite Hok1, Hs, Hd. cbn. rewrite Hok2.
  destruct ws0; reflexivity.
Qed.

Lemma failed_answer_creation_tears_down_witness :
  let env := Scenario.failAt 6 in
  let w := Scenario.accepted env false in
  result (setOffer env (mkSD SDPTypeOffer "remote-offer") w) = Some errEngine /\
  sdp_writes (events (setOffer env (mkSD SDPTypeOffer "remote-offer") w)) = [] /\
  calls (events (setOffer env (mkSD SDPTypeOffer "remote-offer") w)) =
    [CallOnDisconnect NoOp "CREATE-ANSWER-ERROR" (Some errEngine)].
Proof.
  cbv zeta.
  assert (Hp : pc (conn (Scenario.accepted (Scenario.failAt 6) false)) =
               Some (fresh_session (conn (Scenario.start "VP8")) 1))
    by (vm_compute; reflexivity).
  assert (H1 : ok (oracle (Scenario.failAt 6)
                     (clock (Scenario.accepted (Scenario.failAt 6) false))) = true)
    by (vm_compute; reflexivity).
  assert (H2 : ok (oracle (Scenario.failAt 6)
                     (S (clock (Scenario.accepted (Scenario.failAt 6) false)))) = false)
    by (vm_compute; reflexivity).
  rewrite (failed_answer_creation_tears_down (Scenario.failAt 6)
             (Scenario.accepted (Scenario.failAt 6) false)
             (mkSD SDPTypeOffer "remote-offer") _ Hp eq_refl eq_refl H1 H2).
  repeat split; vm_compute; reflexivity.
Defined.

(** ** Session creation *)

Lemma createPeerConnection_outcomes (env : Env) (w : World) :
  let r := createPeerConnection env w in
  match result r with
  | Some _ => conn (world_of r) = conn w /\ calls (events r) = []
  | None =>
      exists p,
        conn (world_of r) = set_pc (Some p) (conn w) /\
        pc_servers p = pcConfig (conn w) /\
        pc_signaling p = SignalingStateStable /\
        pc_local p = None /\ pc_remote p = None /\
        calls (events r) =
          match pc (conn w) with
          | Some _ => [CallOnOpen (onOpenHandler (conn w)) (authzMetadata (conn w))]
          | None => []
          end
  end.
Proof.
  cbv zeta. destruct w as [c k n a].
  unfold createPeerConnection, NewPeerConnection, AddTransceiver, invoke, bind, getc, modc,
    ask, fresh, emit, abandon, ret, result, world_of, events, is_closed.
  cbn.
  repeat (break_inner; cbn);
    try (split; reflexivity);
    try discriminate;
    eexists; repeat apply conj; try reflexivity.
Qed.

(** X12.  [createPeerConnection] either returns an error and leaves the
    connection as it was, calling nothing, or returns nil and stores a new
    session in the stable state, configured with the current relay servers.
    The on-open field is called exactly when a session was replaced. *)
Theorem createPeerConnection_all_or_nothing (env : Env) (w : World) :
  let r := createPeerConnection env w in
  match result r with
  | Some _ => conn (world_of r) = conn w /\ calls (events r) = []
  | None =>
      exists p,
        conn (world_of r) = set_pc (Some p) (conn w) /\
        pc_servers p = pcConfig (conn w) /\
        pc_signaling p = SignalingStateStable /\
        pc_local p = None /\ pc_remote p = None /\
        calls (events r) =
          match pc (conn w) with
          | Some _ => [CallOnOpen (onOpenHandler (conn w)) (authzMetadata (conn w))]
          | None => []
          end
  end.
Proof. exact (createPeerConnection_outcomes env w). Qed.

Lemma accepted_conn_pc (m : acceptMessage) (c : Connection) :
  pc (accepted_conn m c) = pc c.
Proof. unfold accepted_conn. destruct (IceServers m) as [[|s l]|]; reflexivity. Qed.

Lemma accepted_conn_fields (m : acceptMessage) (c : Connection) :
  accept_fields (accepted_conn m c) = (ConnectionID m, AuthzMetadata m, IsExistClient m).
Proof. unfold accepted_conn. destruct (IceServers m) as [[|s l]|]; reflexivity. Qed.

Lemma createPeerConnection_avoids_write (env : Env) :
  avoids is_write (createPeerConnection env).
Proof. unfold createPeerConnection, NewPeerConnection, AddTransceiver, invoke. shun. Qed.

Lemma sendOffer_without_session (env : Env) (w : World) :
  pc (conn w) = None -> sendOffer env w = (None, w, []).
Proof. intros H. unfold sendOffer, bind, getc, ret. rewrite H. reflexivity. Qed.

(** X13.  When no session exists and session creation fails on an accept,
    the accept is still handled with a nil error: the fields of the message
    are kept, no callback is called and nothing is written, also when the
    message asks for an offer. *)
Theorem accept_survives_failed_session_creation (env : Env) (w : World) (raw : Frame)
    (m : acceptMessage) (e : err) :
  decodeType raw = TypeTag "accept" ->
  unmarshalAccept raw = Some m ->
  pc (conn w) = None ->
  result (createPeerConnection env (with_conn (accepted_conn m (conn w)) w)) = Some e ->
  let r := handleMessage env raw w in
  result r = Returned None /\
  conn (world_of r) = accepted_conn m (conn w) /\
  calls (events r) = [] /\
  existsb is_write (events r) = false.
Proof.
  intros Ht Hm Hp He. cbv zeta.
  rewrite (handleMessage_accept env w raw m Ht Hm). cbv zeta.
  pose proof (createPeerConnection_outcomes env
                (with_conn (accepted_conn m (conn w)) w)) as Ha.
  pose proof (createPeerConnection_avoids_write env
                (with_conn (accepted_conn m (conn w)) w)) as Hw.
  cbv zeta in Ha. rewrite He in Ha. destruct Ha as [Hc Hk].
  cbn [conn with_conn] in Hc.
  destruct (IsExistClient m).
  - rewrite (sendOffer_without_session env); [| now rewrite Hc, accepted_conn_pc].
    unfold result, world_of, events. cbn [fst snd].
    fold (world_of (createPeerConnection env (with_conn (accepted_conn m (conn w)) w))).
    fold (events (createPeerConnection env (with_conn (accepted_conn m (conn w)) w))).
    rewrite app_nil_r. repeat split; assumption.
  - unfold result, world_of, events. cbn [fst snd].
    fold (world_of (createPeerConnection env (with_conn (accepted_conn m (conn w)) w))).
    fold (events (createPeerConnection env (with_conn (accepted_conn m (conn w)) w))).
    repeat split; assumption.
Qed.

Lemma accept_survives_failed_session_creation_witness :
  let env := Scenario.failAt 2 in
  let w := world_of (Connect env (Scenario.start "VP8")) in
  let r := handleMessage env (Scenario.accept true) w in
  result r = Returned None /\ pc (conn (world_of r)) = None /\
  connectionID (conn (world_of r)) = "c1" /\
  existsb is_write (events r) = false.
Proof.
  cbv zeta.
  destruct (accept_survives_failed_session_creation (Scenario.failAt 2)
              (world_of (Connect (Scenario.failAt 2) (Scenario.start "VP8")))
              (Scenario.accept true) (mkAccept "c1" None None true) errEngine
              eq_refl eq_refl eq_refl eq_refl) as [H1 [H2 [_ H4]]].
  split; [exact H1|]. rewrite H2.
  split; [reflexivity|]. split; [reflexivity|]. exact H4.
Defined.

Lemma accept_fields_set_pc (v : option PeerConnection) (c : Connection) :
  accept_fields (set_pc v c) = accept_fields c.
Proof. reflexivity. Qed.

Lemma accept_fields_set_isOffer (v : bool) (c : Connection) :
  accept_fields (set_isOffer v c) = accept_fields c.
Proof. reflexivity. Qed.

(** X14.  Every accept stores the connection id, the authorization metadata
    and the peer flag of the message, whether or not the session and the
    offer that follow succeed. *)
Theorem accept_records_identity (env : Env) (w : World) (raw : Frame)
    (m : acceptMessage) :
  decodeType raw = TypeTag "accept" ->
  unmarshalAccept raw = Some m ->
  accept_fields (conn (world_of (handleMessage env raw w))) =
    (ConnectionID m, AuthzMetadata m, IsExistClient m).
Proof.
  intros Ht Hm. rewrite (handleMessage_accept env w raw m Ht Hm). cbv zeta.
  pose proof (createPeerConnection_keeps accept_fields accept_fields_set_pc env
                (with_conn (accepted_conn m (conn w)) w)) as Hk.
  cbn [conn with_conn] in Hk. rewrite accepted_conn_fields in Hk.
  destruct (IsExistClient m) eqn:Hex.
  - unfold world_of at 1. cbn [fst snd].
    fold (world_of (sendOffer env
            (world_of (createPeerConnection env
                         (with_conn (accepted_conn m (conn w)) w))))).
    rewrite (sendOffer_keeps accept_fields accept_fields_set_pc env
               accept_fields_set_isOffer).
    exact Hk.
  - exact Hk.
Qed.

Lemma accept_records_identity_witness :
  let env := Scenario.failAt 5 in
  let w := world_of (Connect env (Scenario.start "H264")) in
  accept_fields (conn (world_of (handleMessage env Scenario.acceptWithServers w))) =
    ("c1", Some (JObj [("role", JStr "guest")]), false).
Proof.
  cbv zeta.
  rewrite (accept_records_identity (Scenario.failAt 5) _ Scenario.acceptWithServers
             (mkAccept "c1" (Some (JObj [("role", JStr "guest")]))
                (Some [mkIceServer ["turn:relay.example"] (Some "u") (Some "p")]) false)
             eq_refl eq_refl).
  reflexivity.
Defined.

(** ** sendOffer: the edge cases *)

(** X15.  If the engine cannot create an offer, [sendOffer] returns the error
    and changes nothing.  If the offer is created but refused as local
    description, [sendOffer] writes nothing and still returns nil and sets
    the offerer flag. *)
Theorem sendOffer_marks_offerer_without_sending (env : Env) (w : World)
    (p : PeerConnection) :
  pc (conn w) = Some p ->
  (ok (oracle env (clock w)) = false ->
   sendOffer env w =
     (Some errEngine, mkWorld (conn w) (S (clock w)) (next_id w) (abandoned w),
      [EvCreateOffer (pc_id p) false])) /\
  (ok (oracle env (clock w)) = true -> is_closed p = false ->
   ok (oracle env (S (clock w))) = false -> pc_local p = None ->
   let r := sendOffer env w in
   result r = None /\ isOffer (conn (world_of r)) = true /\
   pc (conn (world_of r)) = Some p /\ existsb is_write (events r) = false).
Proof.
  intros Hp. destruct w as [c k n a].
  destruct c as [u r o dbg am az cs cid ws0 pc0 cfg io ie h1 h2 h3 h4 h5].
  cbn in Hp. subst pc0. split.
  - intros Hok. cbn in Hok.
    unfold sendOffer, CreateOffer, bind, getc, ask, emit, ret. cbn. rewrite Hok. reflexivity.
  - intros Hok Hc Hok2 Hl. cbn in Hok, Hok2. cbv zeta.
    unfold sendOffer, CreateOffer, SetLocalDescription, sendSdp, bind, getc, modc, ask,
      emit, ret, result, world_of, events.
    cbn. rewrite Hok, Hc. cbn. rewrite Hok2. cbn. rewrite Hl. cbn. repeat split.
Qed.

Lemma sendOffer_marks_offerer_without_sending_witness :
  let env := Scenario.failAt 6 in
  let r := sendOffer env (Scenario.accepted env false) in
  result r = None /\ isOffer (conn (world_of r)) = true /\
  existsb is_write (events r) = false.
Proof.
  cbv zeta.
  assert (Hp : pc (conn (Scenario.accepted (Scenario.failAt 6) false)) =
               Some (fresh_session (conn (Scenario.start "VP8")) 1))
    by (vm_compute; reflexivity).
  assert (H1 : ok (oracle (Scenario.failAt 6)
                     (clock (Scenario.accepted (Scenario.failAt 6) false))) = true)
    by (vm_compute; reflexivity).
  assert (H2 : ok (oracle (Scenario.failAt 6)
                     (S (clock (Scenario.accepted (Scenario.failAt 6) false)))) = false)
    by (vm_compute; reflexivity).
  destruct (proj2 (sendOffer_marks_offerer_without_sending (Scenario.failAt 6)
                     (Scenario.accepted (Scenario.failAt 6) false) _ Hp)
              H1 eq_refl H2 eq_refl) as [R1 [R2 [_ R4]]].
  split; [exact R1|]. split; [exact R2|exact R4].
Defined.

(** ** Complete negotiations *)

Lemma setAnswer_ok (env : Env) (w : World) (p : PeerConnection)
    (d : SessionDescription) :
  pc (conn w) = Some p -> pc_signaling p = SignalingStateHaveLocalOffer ->
  sd_type d = SDPTypeAnswer ->
  engine_ok env ->
  setAnswer env d w =
    (None,
     mkWorld (set_pc (Some (pc_with_remote (Some d)
                              (pc_with_signaling SignalingStateStable p)))
                (conn w))
       (S (clock w)) (next_id w) (abandoned w),
     [EvSetRemoteDescription (pc_id p) d true]).
Proof.
  intros Hp Hs Hd Hok. destruct w as [c k n a]. cbn [conn clock next_id abandoned] in *.
  unfold setAnswer, SetRemoteDescription, bind, getc, modc, ask, emit, ret.
  cbn. rewrite Hp. repeat (progress (cbn; rewrite ?Hok, ?Hs, ?Hd)). reflexivity.
Qed.

Lemma calls_app (a b : list event) : calls (a ++ b) = calls a ++ calls b.
Proof.
  induction a as [|e a IH]; [reflexivity|].
  destruct e; cbn; rewrite ?IH; reflexivity.
Qed.

Lemma writes_app (a b : list event) : writes (a ++ b) = writes a ++ writes b.
Proof.
  induction a as [|e a IH]; [reflexivity|].
  destruct e; cbn; rewrite ?IH; reflexivity.
Qed.

Lemma transceiver_events_calls (c : Connection) (id : nat) :
  calls (transceiver_events c id) = [] /\ writes (transceiver_events c id) = [].
Proof.
  unfold transceiver_events.
  destruct (audio_Enabled (Audio (Options c))), (video_Enabled (Video (Options c)));
    split; reflexivity.
Qed.

(** X16.  From a connection without session: an accept without peer followed
    by a remote offer creates one session, applies the offer and writes
    exactly one frame, the answer; no callback is called and the offerer
    flag is untouched.  (Codec VP8, transport open, engine willing.) *)
Theorem answerer_negotiation (env : Env) (w : World) (a o : Frame)
    (m : acceptMessage) (d : SessionDescription) (h : nat) :
  decodeType a = TypeTag "accept" -> unmarshalAccept a = Some m ->
  IsExistClient m = false ->
  decodeType o = TypeTag "offer" ->
  unmarshalSessionDescription SDPTypeOffer o = Some d ->
  pc (conn w) = None -> ws (conn w) = Some h ->
  video_Codec (Video (Options (conn w))) = "VP8" ->
  engine_ok env ->
  let r := dispatch env [a; o] w in
  result r = ExitClosed /\
  calls (events r) = [] /\
  exists p ans,
    pc (conn (world_of r)) = Some p /\
    pc_remote p = Some d /\ pc_local p = Some ans /\
    sd_type ans = SDPTypeAnswer /\
    pc_signaling p = SignalingStateStable /\
    writes (events r) = [OutSdp ans] /\
    isOffer (conn (world_of r)) = isOffer (conn w).
Proof.
  intros Ha Hm Hex Ho Hd Hp Hws Hc Hok. cbv zeta.
  set (c1 := accepted_conn m (conn w)).
  destruct (createPeerConnection_ok env (with_conn c1 w)) as [k' E];
    [cbn; unfold c1; now rewrite accepted_conn_Options | exact Hok |].
  cbn [conn with_conn next_id abandoned] in E.
  assert (Hp1 : pc c1 = None) by (unfold c1; now rewrite accepted_conn_pc).
  rewrite Hp1 in E.
  assert (H1 : handleMessage env a w =
               (Returned None,
                mkWorld (set_pc (Some (fresh_session c1 (next_id w))) c1) k'
                  (S (next_id w)) (abandoned w),
                EvNewPeerConnection (pcConfig c1) (Some (next_id w))
                :: transceiver_events c1 (next_id w) ++ [])).
  { rewrite (handleMessage_accept env w a m Ha Hm). cbv zeta. rewrite Hex.
    fold c1. rewrite E. reflexivity. }
  set (w1 := mkWorld (set_pc (Some (fresh_session c1 (next_id w))) c1) k'
               (S (next_id w)) (abandoned w)) in *.
  assert (Hws1 : ws (conn w1) = Some h).
  { cbn. unfold c1. now rewrite accepted_conn_ws. }
  pose proof (setOffer_ok env w1 (fresh_session c1 (next_id w)) h d eq_refl eq_refl
                (unmarshalSessionDescription_type _ _ _ Hd) Hws1 Hok) as S2.
  cbv zeta in S2.
  assert (H2 : handleMessage env o w1 =
               (Returned (result (setOffer env d w1)), world_of (setOffer env d w1),
                events (setOffer env d w1))).
  { rewrite (handleMessage_offer env w1 o d Ho Hd). reflexivity. }
  rewrite S2 in H2.
  cbn [dispatch]. unfold bind. rewrite H1, H2.
  unfold result, world_of, events, ret. cbn [fst snd].
  destruct (transceiver_events_calls c1 (next_id w)) as [Tc Tw].
  rewrite !app_nil_r. cbn [app].
  split; [reflexivity|]. split.
  - cbn [calls]. rewrite calls_app, Tc. reflexivity.
  - eexists. eexists. repeat apply conj; try reflexivity.
    + cbn [writes]. rewrite writes_app, Tw. reflexivity.
    + cbn. unfold c1, accepted_conn. destruct (IceServers m) as [[|s l]|]; reflexivity.
Qed.

Lemma answerer_negotiation_witness :
  let w := world_of (Connect Scenario.okEnv (Scenario.start "VP8")) in
  let r := dispatch Scenario.okEnv [Scenario.accept false; Scenario.offer] w in
  result r = ExitClosed /\ calls (events r) = [] /\
  writes (events r) = [OutSdp (mkSD SDPTypeAnswer "v=0")].
Proof.
  cbv zeta.
  destruct (answerer_negotiation Scenario.okEnv
              (world_of (Connect Scenario.okEnv (Scenario.start "VP8")))
              (Scenario.accept false) Scenario.offer
              (mkAccept "c1" None None false) (mkSD SDPTypeOffer "remote-offer") 0
              eq_refl eq_refl eq_refl eq_refl eq_refl eq_refl eq_refl eq_refl
              (fun n => eq_refl))
    as [H1 [H2 [p [ans [_ [_ [_ [_ [_ [H3 _]]]]]]]]]].
  split; [exact H1|]. split; [exact H2|]. vm_compute. reflexivity.
Defined.

(** X17.  An accept that reports a peer followed by the remote answer writes
    exactly one frame, the local offer, and leaves the session in the stable
    state with both descriptions and the offerer flag set. *)
Theorem offerer_negotiation (env : Env) (w : World) (a o : Frame)
    (m : acceptMessage) (d : SessionDescription) (h : nat) :
  decodeType a = TypeTag "accept" -> unmarshalAccept a = Some m ->
  IsExistClient m = true ->
  decodeType o = TypeTag "answer" ->
  unmarshalSessionDescription SDPTypeAnswer o = Some d ->
  ws (conn w) = Some h ->
  video_Codec (Video (Options (conn w))) = "VP8" ->
  engine_ok env ->
  let r := dispatch env [a; o] w in
  result r = ExitClosed /\
  exists p off,
    pc (conn (world_of r)) = Some p /\
    pc_local p = Some off /\ sd_type off = SDPTypeOffer /\
    pc_remote p = Some d /\
    pc_signaling p = SignalingStateStable /\
    writes (events r) = [OutSdp off] /\
    isOffer (conn (world_of r)) = true.
Proof.
  intros Ha Hm Hex Ho Hd Hws Hc Hok. cbv zeta.
  set (c1 := accepted_conn m (conn w)).
  destruct (createPeerConnection_ok env (with_conn c1 w)) as [k' E];
    [cbn; unfold c1; now rewrite accepted_conn_Options | exact Hok |].
  cbn [conn with_conn next_id abandoned] in E.
  pose proof (no_sdp_write _ (createPeerConnection_avoids_sdp env (with_conn c1 w))) as Hq.
  pose proof (createPeerConnection_avoids_write env (with_conn c1 w)) as Hwr.
  rewrite E in Hq, Hwr. unfold events in Hq, Hwr. cbn [snd] in Hq, Hwr.
  set (ev1 := EvNewPeerConnection (pcConfig c1) (Some (next_id w)) :: _) in *.
  set (w1 := mkWorld (set_pc (Some (fresh_session c1 (next_id w))) c1) k'
               (S (next_id w)) _) in *.
  assert (Hws1 : ws (conn w1) = Some h).
  { cbn. unfold c1. now rewrite accepted_conn_ws. }
  pose proof (sendOffer_ok env w1 (fresh_session c1 (next_id w)) h eq_refl eq_refl
                Hws1 Hok) as S1.
  cbv zeta in S1.
  set (off := mkSD SDPTypeOffer (text (oracle env (clock w1)))) in *.
  set (p1 := pc_with_local (Some off)
               (pc_with_signaling SignalingStateHaveLocalOffer
                  (fresh_session c1 (next_id w)))) in *.
  set (w2 := mkWorld (set_isOffer true (set_pc (Some p1) (conn w1)))
               (S (S (S (clock w1)))) (next_id w1) (abandoned w1)) in *.
  assert (H1 : handleMessage env a w =
               (Returned None, w2,
                ev1 ++ [EvCreateOffer (pc_id (fresh_session c1 (next_id w))) true;
                        EvSetLocalDescription (pc_id (fresh_session c1 (next_id w))) off true;
                        EvWrite h (OutSdp off) true])).
  { rewrite (handleMessage_accept env w a m Ha Hm). cbv zeta. rewrite Hex.
    fold c1. rewrite E.
    change (world_of (None, w1, ev1)) with w1. rewrite S1. reflexivity. }
  pose proof (setAnswer_ok env w2 p1 d eq_refl eq_refl
                (unmarshalSessionDescription_type _ _ _ Hd) Hok) as S2.
  assert (H2 : handleMessage env o w2 =
               (Returned (result (setAnswer env d w2)), world_of (setAnswer env d w2),
                events (setAnswer env d w2)))
    by apply (handleMessage_answer env w2 o d Ho Hd).
  rewrite S2 in H2.
  cbn [dispatch]. unfold bind. rewrite H1, H2.
  unfold result, world_of, events, ret. cbn [fst snd].
  rewrite !app_nil_r.
  split; [reflexivity|].
  exists (pc_with_remote (Some d) (pc_with_signaling SignalingStateStable p1)), off.
  repeat apply conj; try reflexivity.
  rewrite !writes_app.
  assert (Hw0 : writes ev1 = []).
  { clear -Hwr. induction ev1 as [|e l IH]; [reflexivity|].
    cbn in Hwr. apply orb_false_iff in Hwr. destruct Hwr as [He Hl].
    destruct e; cbn in *; try discriminate; now apply IH. }
  rewrite Hw0. reflexivity.
Qed.

Lemma offerer_negotiation_witness :
  let w := world_of (Connect Scenario.okEnv (Scenario.start "VP8")) in
  let r := dispatch Scenario.okEnv [Scenario.accept true; Scenario.answer] w in
  result r = ExitClosed /\
  writes (events r) = [OutSdp (mkSD SDPTypeOffer "v=0")] /\
  isOffer (conn (world_of r)) = true.
Proof.
  cbv zeta.
  destruct (offerer_negotiation Scenario.okEnv
              (world_of (Connect Scenario.okEnv (Scenario.start "VP8")))
              (Scenario.accept true) Scenario.answer
              (mkAccept "c1" None None true) (mkSD SDPTypeAnswer "remote-answer") 0
              eq_refl eq_refl eq_refl eq_refl eq_refl eq_refl eq_refl
              (fun n => eq_refl))
    as [H1 [p [off [_ [_ [_ [_ [_ [_ H3]]]]]]]]].
  split; [exact H1|]. split; [vm_compute; reflexivity|exact H3].
Defined.

(** ** The dispatch loop over a longer queue *)

(** X18.  The dispatch loop over a queue in two parts: it runs the second
    part from where the first ended, and if the first part ended with an
    error or a panic, no frame of the second part is handled. *)
Theorem dispatch_app (env : Env) (q1 q2 : list Frame) (w : World) :
  dispatch env (q1 ++ q2) w =
    match result (dispatch env q1 w) with
    | ExitClosed =>
        (result (dispatch env q2 (world_of (dispatch env q1 w))),
         world_of (dispatch env q2 (world_of (dispatch env q1 w))),
         events (dispatch env q1 w) ++
         events (dispatch env q2 (world_of (dispatch env q1 w))))
    | ExitError e l =>
        (ExitError e (l ++ q2), world_of (dispatch env q1 w),
         events (dispatch env q1 w))
    | ExitPanic l =>
        (ExitPanic (l ++ q2), world_of (dispatch env q1 w),
         events (dispatch env q1 w))
    end.
Proof.
  revert w. induction q1 as [|raw q1 IH]; intros w.
  - cbn. unfold result, world_of, events.
    destruct (dispatch env q2 w) as [[x w2] e2]. reflexivity.
  - cbn [app dispatch]. unfold bind.
    destruct (handleMessage env raw w) as [[[[e|]|] w1] ev1].
    + unfold ret, result, world_of, events. cbn. reflexivity.
    + rewrite (IH w1). unfold result, world_of, events.
      destruct (dispatch env q1 w1) as [[x w2] e2]. cbn [fst snd].
      destruct x as [|e l|l].
      * destruct (dispatch env q2 w2) as [[y w3] e3]. cbn. now rewrite app_assoc.
      * reflexivity.
      * reflexivity.
    + unfold ret, result, world_of, events. cbn. reflexivity.
Qed.

(** ** The on-disconnect handler of the consumer *)

Lemma teardown_avoids_consumer (c : Connection) :
  existsb is_consumer_disconnect (teardown c) = false.
Proof.
  unfold teardown. destruct (pc c) as [p|]; [destruct (is_closed p)|];
    destruct (ws c); reflexivity.
Qed.

Lemma teardown_then_notify {A : Type} (reason : string) (e : error) (k : M A) :
  avoids is_consumer_disconnect k ->
  avoids is_consumer_disconnect
    (bind Disconnect (fun _ =>
       bind getc (fun c1 =>
         bind (invoke (CallOnDisconnect (onDisconnectHandler c1) reason e))
              (fun _ => k)))).
Proof.
  intros Hk w. unfold bind at 1. rewrite Disconnect_closed_form.
  unfold bind, getc, invoke, emit, events.
  pose proof (Hk (with_conn (disconnected (conn w)) w)) as H. unfold events in H.
  destruct (k (with_conn (disconnected (conn w)) w)) as [[x w2] e2].
  cbn [fst snd] in *. rewrite !existsb_app, teardown_avoids_consumer, H. reflexivity.
Qed.

Lemma teardown_then_notify_last (reason : string) (e : error) :
  avoids is_consumer_disconnect
    (bind Disconnect (fun _ =>
       bind getc (fun c1 =>
         invoke (CallOnDisconnect (onDisconnectHandler c1) reason e)))).
Proof.
  intros w. unfold bind at 1. rewrite Disconnect_closed_form.
  unfold bind, getc, invoke, emit, events. cbn [fst snd].
  rewrite !existsb_app, teardown_avoids_consumer. reflexivity.
Qed.

Create HintDb cddb.

Ltac cd_step :=
  lazymatch goal with
  | |- avoids _ (bind Disconnect _) =>
      first [ apply teardown_then_notify
            | apply teardown_then_notify_last
            | apply avoids_bind; [| intros ?] ]
  | |- avoids _ (invoke _) => unfold invoke; apply avoids_emit; reflexivity
  | |- avoids _ (ret _) => apply avoids_ret
  | |- avoids _ getc => apply avoids_getc
  | |- avoids _ (modc _) => apply avoids_modc
  | |- avoids _ fresh => apply avoids_fresh
  | |- avoids _ (abandon _) => apply avoids_abandon
  | |- avoids _ (ask _) => apply avoids_ask
  | |- avoids _ (emit _) => apply avoids_emit; reflexivity
  | |- avoids _ (bind _ _) => apply avoids_bind; [| intros ?]
  | |- avoids _ (match ?x with _ => _ end) => destruct x
  | |- avoids _ (let _ := _ in _) => cbv zeta
  | |- avoids _ _ => solve [auto 1 with cddb nocore]
  end.

Ltac cd := repeat cd_step.

Lemma Disconnect_avoids_consumer : avoids is_consumer_disconnect Disconnect.
Proof.
  intros w. rewrite Disconnect_closed_form. apply teardown_avoids_consumer.
Qed.

#[local] Hint Extern 1 (avoids is_consumer_disconnect Disconnect) =>
  apply Disconnect_avoids_consumer : cddb.

Lemma sendMsg_avoids_consumer (env : Env) (v : outMsg) :
  avoids is_consumer_disconnect (sendMsg env v).
Proof. unfold sendMsg, Write. cd. Qed.

#[local] Hint Extern 1 (avoids is_consumer_disconnect (sendMsg _ _)) =>
  apply sendMsg_avoids_consumer : cddb.

Lemma createPeerConnection_avoids_consumer (env : Env) :
  avoids is_consumer_disconnect (createPeerConnection env).
Proof. unfold createPeerConnection, NewPeerConnection, AddTransceiver. cd. Qed.

#[local] Hint Extern 1 (avoids is_consumer_disconnect (createPeerConnection _)) =>
  apply createPeerConnection_avoids_consumer : cddb.

Lemma sendOffer_avoids_consumer (env : Env) :
  avoids is_consumer_disconnect (sendOffer env).
Proof. unfold sendOffer, CreateOffer, SetLocalDescription, sendSdp. cd. Qed.

#[local] Hint Extern 1 (avoids is_consumer_disconnect (sendOffer _)) =>
  apply sendOffer_avoids_consumer : cddb.

Lemma createAnswer_avoids_consumer (env : Env) :
  avoids is_consumer_disconnect (createAnswer env).
Proof. unfold createAnswer, CreateAnswer, SetLocalDescription, sendSdp. cd. Qed.

#[local] Hint Extern 1 (avoids is_consumer_disconnect (createAnswer _)) =>
  apply createAnswer_avoids_consumer : cddb.

Lemma setOffer_avoids_consumer (env : Env) (d : SessionDescription) :
  avoids is_consumer_disconnect (setOffer env d).
Proof. unfold setOffer, SetRemoteDescription. cd. Qed.

#[local] Hint Extern 1 (avoids is_consumer_disconnect (setOffer _ _)) =>
  apply setOffer_avoids_consumer : cddb.

Lemma setAnswer_avoids_consumer (env : Env) (d : SessionDescription) :
  avoids is_consumer_disconnect (setAnswer env d).
Proof. unfold setAnswer, SetRemoteDescription. cd. Qed.

#[local] Hint Extern 1 (avoids is_consumer_disconnect (setAnswer _ _)) =>
  apply setAnswer_avoids_consumer : cddb.

Lemma addICECandidate_avoids_consumer (env : Env) (cand : ICECandidateInit) :
  avoids is_consumer_disconnect (addICECandidate env cand).
Proof. unfold addICECandidate, AddICECandidate. cd. Qed.

#[local] Hint Extern 1 (avoids is_consumer_disconnect (addICECandidate _ _)) =>
  apply addICECandidate_avoids_consumer : cddb.

Lemma handleMessage_avoids_consumer (env : Env) (raw : Frame) :
  avoids is_consumer_disconnect (handleMessage env raw).
Proof. unfold handleMessage, sendPongMessage. cd. Qed.

Lemma dispatch_avoids_consumer (env : Env) (q : list Frame) :
  avoids is_consumer_disconnect (dispatch env q).
Proof.
  induction q as [|raw q IH]; cbn [dispatch]; [cd|].
  apply avoids_bind; [apply handleMessage_avoids_consumer|].
  intros [[e|]|]; [cd | exact IH | cd].
Qed.

(** X19.  Whatever handler the consumer registered, no run of the dispatch
    loop, of the ICE state handler, of the end of the read task, of
    [Connect] or of [Disconnect] calls it: every call of the on-disconnect
    field follows a [Disconnect] and reaches the stub. *)
Theorem consumer_disconnect_handler_is_never_called (env : Env) :
  (forall q, avoids is_consumer_disconnect (main env q)) /\
  (forall s, avoids is_consumer_disconnect (onICEConnectionStateChange s)) /\
  avoids is_consumer_disconnect recvExit /\
  avoids is_consumer_disconnect (Connect env) /\
  avoids is_consumer_disconnect Disconnect.
Proof.
  repeat apply conj.
  - intros q. unfold main. apply avoids_bind; [apply dispatch_avoids_consumer|].
    intros x. cd.
  - intros s. unfold onICEConnectionStateChange. cd.
  - unfold recvExit. cd.
  - unfold Connect, signaling, openWS, Dial, sendRegisterMessage. cd.
  - apply Disconnect_avoids_consumer.
Qed.

(** ** ICE connection state *)

(** X21.  When ICE becomes connected, the state is recorded, the offerer
    flag is cleared and the consumer's on-connect handler is called once;
    nothing is closed. *)
Theorem ice_connected_notifies_consumer (w : World) :
  connectionState (conn w) <> ICEConnectionStateConnected ->
  onICEConnectionStateChange ICEConnectionStateConnected w =
    (tt,
     with_conn (set_isOffer false
                  (set_connectionState ICEConnectionStateConnected (conn w))) w,
     [EvCall (CallOnConnect (onConnectHandler (conn w)))]).
Proof.
  intros H. destruct w as [c k n a]. cbn [conn] in H.
  unfold onICEConnectionStateChange, bind, getc, modc, invoke, emit, ret, with_conn.
  cbn. destruct (connectionState c); try (now elim H); reflexivity.
Qed.

(** X22.  When ICE becomes failed or disconnected, the connection is torn
    down and the on-disconnect field (by then the stub) is called with
    ICE-CONNECTION-STATE-FAILED; the recorded state ends as new, not as
    failed. *)
Theorem ice_failure_tears_down (s : ICEConnectionState) (w : World) :
  s = ICEConnectionStateFailed \/ s = ICEConnectionStateDisconnected ->
  connectionState (conn w) <> s ->
  onICEConnectionStateChange s w =
    (tt, with_conn (disconnected (conn w)) w,
     teardown (conn w) ++
     [EvCall (CallOnDisconnect NoOp "ICE-CONNECTION-STATE-FAILED" None)]) /\
  connectionState (conn (world_of (onICEConnectionStateChange s w))) =
    ICEConnectionStateNew.
Proof.
  intros Hs H.
  assert (E : onICEConnectionStateChange s w =
    (tt, with_conn (disconnected (conn w)) w,
     teardown (conn w) ++
     [EvCall (CallOnDisconnect NoOp "ICE-CONNECTION-STATE-FAILED" None)])).
  { unfold onICEConnectionStateChange, bind, getc.
    destruct Hs; subst s;
      destruct (connectionState (conn w)) eqn:E; try (now elim H);
      unfold modc at 1; rewrite Disconnect_closed_form;
      destruct w as [c k n a]; reflexivity. }
  split; [exact E|]. rewrite E. reflexivity.
Qed.

(** X23.  A repeated ICE state notification does nothing at all; a change to
    new, checking, completed or closed only records the state. *)
Theorem ice_state_is_recorded_once (s : ICEConnectionState) (w : World) :
  (connectionState (conn w) = s -> onICEConnectionStateChange s w = (tt, w, [])) /\
  (connectionState (conn w) <> s ->
   s <> ICEConnectionStateConnected -> s <> ICEConnectionStateFailed ->
   s <> ICEConnectionStateDisconnected ->
   onICEConnectionStateChange s w =
     (tt, with_conn (set_connectionState s (conn w)) w, [])).
Proof.
  destruct w as [c k n a]. cbn [conn]. split.
  - intros H. unfold onICEConnectionStateChange, bind, getc, ret. cbn. rewrite H.
    destruct s; reflexivity.
  - intros H H1 H2 H3.
    unfold onICEConnectionStateChange, bind, getc, modc, ret, with_conn. cbn.
    destruct (connectionState c), s;
      try (now elim H); try (now elim H1); try (now elim H2); try (now elim H3);
      reflexivity.
Qed.

Lemma ice_connected_notifies_consumer_witness :
  let w := world_of (OnConnect (Consumer 5) (Scenario.accepted Scenario.okEnv true)) in
  let r := onICEConnectionStateChange ICEConnectionStateConnected w in
  isOffer (conn w) = true /\
  events r = [EvCall (CallOnConnect (Consumer 5))] /\
  isOffer (conn (world_of r)) = false.
Proof.
  cbv zeta.
  rewrite (ice_connected_notifies_consumer
             (world_of (OnConnect (Consumer 5) (Scenario.accepted Scenario.okEnv true)))).
  - split; [vm_compute; reflexivity|]. split; reflexivity.
  - vm_compute. discriminate.
Defined.

Lemma ice_failure_tears_down_witness :
  let w := world_of (OnDisconnect (Consumer 7) (Scenario.accepted Scenario.okEnv true)) in
  let r := onICEConnectionStateChange ICEConnectionStateDisconnected w in
  calls (events r) = [CallOnDisconnect NoOp "ICE-CONNECTION-STATE-FAILED" None] /\
  connectionState (conn (world_of r)) = ICEConnectionStateNew.
Proof.
  cbv zeta.
  destruct (ice_failure_tears_down ICEConnectionStateDisconnected
              (world_of (OnDisconnect (Consumer 7) (Scenario.accepted Scenario.okEnv true))))
    as [E H].
  - right. reflexivity.
  - vm_compute. discriminate.
  - split; [|exact H]. rewrite E. vm_compute. reflexivity.
Defined.

Lemma ice_state_is_recorded_once_witness :
  let w := Scenario.accepted Scenario.okEnv true in
  let r := onICEConnectionStateChange ICEConnectionStateChecking w in
  events r = [] /\
  onICEConnectionStateChange ICEConnectionStateChecking (world_of r) =
    (tt, world_of r, []).
Proof.
  cbv zeta.
  rewrite (proj2 (ice_state_is_recorded_once ICEConnectionStateChecking
                    (Scenario.accepted Scenario.okEnv true))).
  - split; [reflexivity|].
    apply (proj1 (ice_state_is_recorded_once ICEConnectionStateChecking _)).
    reflexivity.
  - vm_compute. discriminate.
  - discriminate.
  - discriminate.
  - discriminate.
Defined.
